(** * cqlengine.management: keyspace, table and index synchronisation

    A shallow embedding of [cqlengine/management.py].  The four public
    functions ([create_keyspace], [delete_keyspace], [create_table],
    [delete_table]) talk to a Cassandra cluster through the connection
    layer; here they are computations in a small monad that threads the
    cluster catalog, records every interaction with the connection and
    carries Python exceptions.

    Conventions.
    - A Python string is a [string]: a sequence of characters with codes
      below 256.
    - A Python [dict] is an association list with distinct keys, kept in
      insertion order; no result below depends on the order in which
      [json.dumps] walks a dict except where a rendered text is written
      out in full.
    - [model.__read_repair_chance__] is a float; the model carries the text
      that [str.format] prints for it.
    - What the model layer computes ([column_family_name],
      [_get_keyspace], [get_column_def], the flags of a column,
      [_clustering_keys]) is data of the [Model] and [Column] records. *)

From Stdlib Require Import String Ascii List Bool Arith ZArith Lia.
From Stdlib Require Import DecimalString Permutation.
Import ListNotations.
Local Open Scope list_scope.
Local Open Scope string_scope.

(** ** Python strings *)

Module Py.

Definition dquote : ascii := "034"%char.
Definition squote : ascii := "039"%char.
Definition backslash : ascii := "092"%char.
Definition newline : ascii := "010"%char.

(** [str1] is the one-character string. *)
Definition str1 (c : ascii) : string := String c EmptyString.

(** ['"{}"'.format(s)] *)
Definition quoted (s : string) : string := str1 dquote ++ s ++ str1 dquote.

(** [sep.join(l)] *)
Definition join (sep : string) (l : list string) : string := String.concat sep l.

(** [sub in s] on strings *)
Fixpoint str_in (sub s : string) : bool :=
  if String.prefix sub s then true
  else match s with
       | EmptyString => false
       | String _ s' => str_in sub s'
       end.

(** [x in l] on a list of strings *)
Definition list_in (x : string) (l : list string) : bool :=
  existsb (String.eqb x) l.

(** [s.replace(a, b)] for one-character [a] and [b] *)
Fixpoint replace_char (a b : ascii) (s : string) : string :=
  match s with
  | EmptyString => EmptyString
  | String c s' => String (if Ascii.eqb c a then b else c) (replace_char a b s')
  end.

(** [s.endswith(suf)] *)
Fixpoint endswith (s suf : string) : bool :=
  if String.eqb s suf then true
  else match s with
       | EmptyString => false
       | String _ s' => endswith s' suf
       end.

(** [str(z)] for an integer *)
Definition str_of_int (z : Z) : string := NilZero.string_of_int (Z.to_int z).

(** [x or d] where [x] is [None] or a string: [None] and the empty string
    are falsy. *)
Definition or_str (x : option string) (d : string) : string :=
  match x with
  | None => d
  | Some EmptyString => d
  | Some s => s
  end.

(** [s[-1]], when there is one *)
Fixpoint last_char (s : string) : option ascii :=
  match s with
  | EmptyString => None
  | String c EmptyString => Some c
  | String _ s' => last_char s'
  end.

End Py.

(** ** Python values, dicts and [json.dumps] *)

Module Json.

(** The values that reach [json.dumps] through a replication map. *)
Inductive pyval : Type :=
| PStr (s : string)
| PInt (z : Z)
| PBool (b : bool)
| PNone.

Definition pydict : Type := list (string * pyval).

(** [d.get(k)] *)
Fixpoint dict_get (k : string) (d : pydict) : option pyval :=
  match d with
  | [] => None
  | (k', v) :: d' => if String.eqb k k' then Some v else dict_get k d'
  end.

(** [d[k] = v]: the value of an existing key is replaced where it stands,
    a new key goes last. *)
Fixpoint dict_set (k : string) (v : pyval) (d : pydict) : pydict :=
  match d with
  | [] => [(k, v)]
  | (k', v') :: d' =>
      if String.eqb k k' then (k', v) :: d' else (k', v') :: dict_set k v d'
  end.

(** [d.update(e)] *)
Definition dict_update (d e : pydict) : pydict :=
  fold_left (fun acc kv => dict_set (fst kv) (snd kv) acc) e d.

Definition dict_keys (d : pydict) : list string := map fst d.

Definition hex_digit (n : nat) : ascii :=
  nth n ["0"; "1"; "2"; "3"; "4"; "5"; "6"; "7";
         "8"; "9"; "a"; "b"; "c"; "d"; "e"; "f"]%char "0"%char.

(** [json.encoder.encode_basestring_ascii], one character: the quote and
    the backslash are escaped, the usual control characters have short
    escapes, everything else outside [' '..'~'] is written [\u00xx]. *)
Definition escape_char (c : ascii) : string :=
  let n := nat_of_ascii c in
  if Ascii.eqb c Py.dquote then String Py.backslash (Py.str1 Py.dquote)
  else if Ascii.eqb c Py.backslash then String Py.backslash (Py.str1 Py.backslash)
  else if (n =? 10)%nat then String Py.backslash "n"
  else if (n =? 13)%nat then String Py.backslash "r"
  else if (n =? 9)%nat then String Py.backslash "t"
  else if (n =? 8)%nat then String Py.backslash "b"
  else if (n =? 12)%nat then String Py.backslash "f"
  else if (n <? 32)%nat || (126 <? n)%nat then
    String Py.backslash
      ("u00" ++ Py.str1 (hex_digit (n / 16)) ++ Py.str1 (hex_digit (n mod 16)))
  else Py.str1 c.

Fixpoint escape (s : string) : string :=
  match s with
  | EmptyString => EmptyString
  | String c s' => escape_char c ++ escape s'
  end.

Definition dumps_str (s : string) : string := Py.quoted (escape s).

Definition dumps_val (v : pyval) : string :=
  match v with
  | PStr s => dumps_str s
  | PInt z => Py.str_of_int z
  | PBool true => "true"
  | PBool false => "false"
  | PNone => "null"
  end.

Definition dumps_item (kv : string * pyval) : string :=
  dumps_str (fst kv) ++ ": " ++ dumps_val (snd kv).

(** [json.dumps(d)] with the default separators *)
Definition dumps (d : pydict) : string :=
  "{" ++ Py.join ", " (map dumps_item d) ++ "}".

End Json.

Import Json.

(** ** The model layer, as [management.py] sees it *)

(** A column descriptor.  [get_column_def] is the DDL fragment the column
    prints for itself; [clustering_order] is [None] when not declared. *)
Record Column : Type := {
  db_field_name : string;
  get_column_def : string;
  primary_key : bool;
  partition_key : bool;
  index : bool;
  clustering_order : option string
}.

(** A model class.  [_columns] and [_clustering_keys] are ordered dicts in
    declaration order; [column_family_name] takes [include_keyspace]. *)
Record Model : Type := {
  __abstract__ : bool;
  column_family_name : bool -> string;
  _get_keyspace : string;
  _columns : list (string * Column);
  _clustering_keys : list (string * Column);
  __read_repair_chance__ : string
}.

(** [d.values()] of an ordered dict *)
Definition values {K V : Type} (d : list (K * V)) : list V := map snd d.

(** ** Exceptions, the connection and the trace *)

(** [CQLEngineException] is the exception class of the package; whatever
    else the connection layer may raise is a [ForeignException]. *)
Inductive exn : Type :=
| CQLEngineException (message : string)
| ForeignException (class_name message : string).

(** [unicode(ex)] *)
Definition unicode (ex : exn) : string :=
  match ex with
  | CQLEngineException m => m
  | ForeignException _ m => m
  end.

(** The cluster behind [cqlengine.connection]: [select] answers a catalog
    query (the rows, each reduced to the one attribute the caller reads),
    [run_ddl] executes a statement, changes the catalog and may fail. *)
Class Connection : Type := {
  catalog : Type;
  select : string -> list string -> catalog -> list string;
  run_ddl : string -> catalog -> catalog * option exn
}.

(** What a call did on the connection, in order. *)
Inductive event : Type :=
| Query (cql : string) (params : list string) (rows : list string)
| Execute (cql : string).

Definition is_execute (e : event) : bool :=
  match e with
  | Execute _ => true
  | Query _ _ _ => false
  end.

Inductive outcome (A : Type) : Type :=
| Returned (a : A)
| Raised (e : exn).
Arguments Returned {A} a.
Arguments Raised {A} e.

Definition SELECT_KEYSPACES : string :=
  "SELECT keyspace_name FROM system.schema_keyspaces".

Definition SELECT_COLUMNFAMILIES : string :=
  "SELECT columnfamily_name from system.schema_columnfamilies WHERE keyspace_name = %s".

Definition SELECT_INDEXES : string :=
  "SELECT index_name from system." ++ Py.quoted "IndexInfo" ++ " WHERE table_name=%s".

Definition ALREADY_EXISTS : string :=
  "Cannot add already existing column family".

Section Management.

Context {conn : Connection}.

(** A computation: from a catalog to an outcome, the catalog afterwards and
    the events of the call. *)
Definition M (A : Type) : Type := catalog -> outcome A * catalog * list event.

Definition ret {A : Type} (a : A) : M A := fun c => (Returned a, c, []).

Definition raise {A : Type} (e : exn) : M A := fun c => (Raised e, c, []).

Definition bind {A B : Type} (m : M A) (k : A -> M B) : M B :=
  fun c =>
    match m c with
    | (Returned a, c1, ev1) =>
        match k a c1 with
        | (r, c2, ev2) => (r, c2, app ev1 ev2)
        end
    | (Raised e, c1, ev1) => (Raised e, c1, ev1)
    end.

(** [try: m  except CQLEngineException as ex: h ex]: an exception of
    another class is not caught. *)
Definition try_except_CQLEngineException {A : Type}
           (m : M A) (h : exn -> M A) : M A :=
  fun c =>
    match m c with
    | (Raised (CQLEngineException msg), c1, ev1) =>
        match h (CQLEngineException msg) c1 with
        | (r, c2, ev2) => (r, c2, app ev1 ev2)
        end
    | other => other
    end.

(** [con.execute(query, params, row_factory=named_tuple_factory)] inside
    [with connection_manager() as con] *)
Definition con_execute (query : string) (params : list string) : M (list string) :=
  fun c => let rows := select query params c in
           (Returned rows, c, [Query query params rows]).

(** [execute(query)] *)
Definition execute (query : string) : M unit :=
  fun c =>
    match run_ddl query c with
    | (c', None) => (Returned tt, c', [Execute query])
    | (c', Some e) => (Raised e, c', [Execute query])
    end.

(** [for x in l: body x] *)
Fixpoint for_each {A : Type} (l : list A) (body : A -> M unit) : M unit :=
  match l with
  | [] => ret tt
  | x :: l' => bind (body x) (fun _ => for_each l' body)
  end.

End Management.

Declare Scope py_scope.
Delimit Scope py_scope with py.
Notation "x <- m ;; k" := (bind m (fun x => k))
  (at level 61, m at next level, right associativity) : py_scope.
Notation "m ;; k" := (bind m (fun _ => k))
  (at level 61, right associativity) : py_scope.
Local Open Scope py_scope.

(** ** [create_keyspace] and [delete_keyspace] *)

Section Keyspaces.

Context {conn : Connection}.

(** The dict literal of [create_keyspace] followed by
    [replication_map.update(replication_values)]. *)
Definition replication_map (strategy_class : string) (replication_factor : pyval)
           (replication_values : pydict) : pydict :=
  dict_update
    (dict_set "replication_factor" replication_factor
       (dict_set "class" (PStr strategy_class) []))
    replication_values.

(** The indentation that the triple-quoted template of [create_keyspace]
    carries on each of its lines. *)
Definition INDENT : string := Py.str1 Py.newline ++ "            ".

(** The template of [create_keyspace], filled in with the name and the
    replication map. *)
Definition keyspace_template (name : string) (replication_map : pydict) : string :=
  INDENT ++ "CREATE KEYSPACE " ++ name ++
  INDENT ++ "WITH REPLICATION = " ++
    Py.replace_char Py.dquote Py.squote (dumps replication_map) ++
  INDENT.

(** The text handed to [execute] by [create_keyspace]. *)
Definition create_keyspace_query (name strategy_class : string)
           (replication_factor : pyval) (durable_writes : bool)
           (replication_values : pydict) : string :=
  let replication_map :=
    replication_map strategy_class replication_factor replication_values in
  let query := keyspace_template name replication_map in
  if negb (String.eqb strategy_class "SimpleStrategy") then
    query ++ " AND DURABLE_WRITES = " ++ (if durable_writes then "true" else "false")
  else query.

Definition create_keyspace (name strategy_class : string)
           (replication_factor : pyval) (durable_writes : bool)
           (replication_values : pydict) : M unit :=
  keyspaces <- con_execute SELECT_KEYSPACES [] ;;
  if negb (Py.list_in name keyspaces) then
    execute (create_keyspace_query name strategy_class replication_factor
               durable_writes replication_values)
  else ret tt.

(** [create_keyspace(name)]: every other parameter at its default. *)
Definition create_keyspace_defaults (name : string) : M unit :=
  create_keyspace name "SimpleStrategy" (PInt 3) true [].

Definition delete_keyspace (name : string) : M unit :=
  keyspaces <- con_execute SELECT_KEYSPACES [] ;;
  if Py.list_in name keyspaces then execute ("DROP KEYSPACE " ++ name)
  else ret tt.

End Keyspaces.

(** ** [create_table] and [delete_table] *)

Section Tables.

Context {conn : Connection}.

(** The three lists that [add_column] appends to. *)
Record column_acc : Type := {
  pkeys : list string;
  ckeys : list string;
  qtypes : list string
}.

Definition add_column (acc : column_acc) (col : Column) : column_acc :=
  let s := get_column_def col in
  let acc :=
    if primary_key col then
      if partition_key col then
        {| pkeys := app (pkeys acc) [Py.quoted (db_field_name col)];
           ckeys := ckeys acc;
           qtypes := qtypes acc |}
      else
        {| pkeys := pkeys acc;
           ckeys := app (ckeys acc) [Py.quoted (db_field_name col)];
           qtypes := qtypes acc |}
    else acc in
  {| pkeys := pkeys acc; ckeys := ckeys acc; qtypes := app (qtypes acc) [s] |}.

(** [for name, col in model._columns.items(): add_column(col)] *)
Definition collect_columns (model : Model) : column_acc :=
  fold_left add_column (values (_columns model))
            {| pkeys := []; ckeys := []; qtypes := [] |}.

(** ['PRIMARY KEY (({}){})'.format(', '.join(pkeys),
       ckeys and ', ' + ', '.join(ckeys) or '')] *)
Definition primary_key_clause (pkeys ckeys : list string) : string :=
  "PRIMARY KEY ((" ++ Py.join ", " pkeys ++ ")" ++
  (match ckeys with
   | [] => ""
   | _ :: _ => ", " ++ Py.join ", " ckeys
   end) ++ ")".

(** [_order] of [create_table] *)
Definition clustering_order_items (model : Model) : list string :=
  map (fun c => db_field_name c ++ " " ++ Py.or_str (clustering_order c) "ASC")
      (values (_clustering_keys model)).

(** [with_qs] of [create_table] *)
Definition with_clauses (model : Model) : list string :=
  let with_qs := ["read_repair_chance = " ++ __read_repair_chance__ model] in
  let _order := clustering_order_items model in
  match _order with
  | [] => with_qs
  | _ :: _ =>
      app with_qs ["clustering order by (" ++ Py.join ", " _order ++ ")"]
  end.

(** The CREATE TABLE text that [create_table] composes in [qs]. *)
Definition create_table_query (model : Model) : string :=
  let cf_name := column_family_name model true in
  let qs := ["CREATE TABLE " ++ cf_name] in
  let acc := collect_columns model in
  let qtypes := app (qtypes acc) [primary_key_clause (pkeys acc) (ckeys acc)] in
  let qs := app qs ["(" ++ Py.join ", " qtypes ++ ")"] in
  let qs := app qs ["WITH " ++ Py.join " AND " (with_clauses model)] in
  Py.join " " qs.

(** ['index_{}_{}'.format(raw_cf_name, column.db_field_name)] *)
Definition index_name (raw_cf_name : string) (column : Column) : string :=
  "index_" ++ raw_cf_name ++ "_" ++ db_field_name column.

(** The CREATE INDEX text of the index loop. *)
Definition create_index_query (cf_name raw_cf_name : string) (column : Column) : string :=
  let idx_name := index_name raw_cf_name column in
  let qs := ["CREATE INDEX " ++ idx_name] in
  let qs := app qs ["ON " ++ cf_name] in
  let qs := app qs ["(" ++ Py.quoted (db_field_name column) ++ ")"] in
  Py.join " " qs.

(** [create_table], lines 56-59: the keyspace is created when asked for. *)
Definition keyspace_step (model : Model) (create_missing_keyspace : bool) : M unit :=
  let ks_name := _get_keyspace model in
  if create_missing_keyspace then create_keyspace_defaults ks_name else ret tt.

(** [create_table], lines 61-107: the table is created when the catalog
    does not list it; a [CQLEngineException] that says the column family
    exists already is ignored. *)
Definition table_step (model : Model) : M unit :=
  let raw_cf_name := column_family_name model false in
  let ks_name := _get_keyspace model in
  tables <- con_execute SELECT_COLUMNFAMILIES [ks_name] ;;
  if negb (Py.list_in raw_cf_name tables) then
    try_except_CQLEngineException
      (execute (create_table_query model))
      (fun ex =>
         if negb (Py.str_in ALREADY_EXISTS (unicode ex)) then raise ex
         else ret tt)
  else ret tt.

(** [create_table], lines 109-130: the indexes that the catalog does not
    list are created, in column order. *)
Definition index_step (model : Model) : M unit :=
  let cf_name := column_family_name model true in
  let raw_cf_name := column_family_name model false in
  let ks_name := _get_keyspace model in
  idx_names <- con_execute SELECT_INDEXES [ks_name] ;;
  let indexes := filter index (values (_columns model)) in
  for_each indexes
    (fun column =>
       let idx_name := index_name raw_cf_name column in
       if Py.list_in (raw_cf_name ++ "." ++ idx_name) idx_names then ret tt
       else execute (create_index_query cf_name raw_cf_name column)).

Definition create_table (model : Model) (create_missing_keyspace : bool) : M unit :=
  if __abstract__ model then
    raise (CQLEngineException "cannot create table from abstract model")
  else
    keyspace_step model create_missing_keyspace ;;
    table_step model ;;
    index_step model.

Definition delete_table (model : Model) : M unit :=
  let ks_name := _get_keyspace model in
  tables <- con_execute SELECT_COLUMNFAMILIES [ks_name] ;;
  let raw_cf_name := column_family_name model false in
  if negb (Py.list_in raw_cf_name tables) then ret tt
  else
    let cf_name := column_family_name model true in
    execute ("drop table " ++ cf_name ++ ";").

End Tables.

(** ** Reading the result of a run *)

Section Runs.

Context {conn : Connection}.

Definition outcome_of {A : Type} (r : outcome A * catalog * list event) : outcome A :=
  fst (fst r).

Definition catalog_of {A : Type} (r : outcome A * catalog * list event) : catalog :=
  snd (fst r).

Definition events_of {A : Type} (r : outcome A * catalog * list event) : list event :=
  snd r.


End Runs.

(** The texts of the catalog queries of a trace, in order. *)
Definition queries (evs : list event) : list string :=
  flat_map (fun e => match e with
                     | Query q _ _ => [q]
                     | Execute _ => []
                     end) evs.

(** The catalog queries of a complete run of [create_table]. *)
Definition create_table_reads (create_missing_keyspace : bool) : list string :=
  ((if create_missing_keyspace then [SELECT_KEYSPACES] else []) ++
   [SELECT_COLUMNFAMILIES; SELECT_INDEXES])%list.

(** The statement ends with a durable-writes clause. *)
Definition has_durable_writes_clause (q : string) : bool :=
  Py.endswith q " AND DURABLE_WRITES = true" ||
  Py.endswith q " AND DURABLE_WRITES = false".

(** A column that takes part in the partition key, resp. the clustering
    key, as [add_column] decides it. *)
Definition is_partition_key (col : Column) : bool :=
  primary_key col && partition_key col.

Definition is_clustering_key (col : Column) : bool :=
  primary_key col && negb (partition_key col).

(** ['"{}"'.format(col.db_field_name)] *)
Definition quoted_name (col : Column) : string := Py.quoted (db_field_name col).

(** The indexed columns whose qualified index name the catalog does not
    list. *)
Definition pending_indexes (model : Model) (idx_names : list string) : list Column :=
  let raw_cf_name := column_family_name model false in
  filter (fun column =>
            negb (Py.list_in (raw_cf_name ++ "." ++ index_name raw_cf_name column)
                             idx_names))
         (filter index (values (_columns model))).

(** ** A cluster in memory, to run the functions on *)

Module Sample.

(** The catalog: keyspace names, and per keyspace the names of the column
    families and the qualified names of the indexes. *)
Record cluster : Type := {
  keyspace_rows : list string;
  columnfamily_rows : list (string * string);
  index_rows : list (string * string)
}.

Definition rows_of (ks : string) (l : list (string * string)) : list string :=
  map snd (filter (fun r => String.eqb (fst r) ks) l).

Definition answer (q : string) (params : list string) (c : cluster) : list string :=
  if String.eqb q SELECT_KEYSPACES then keyspace_rows c
  else match params with
       | [ks] =>
           if String.eqb q SELECT_COLUMNFAMILIES then rows_of ks (columnfamily_rows c)
           else if String.eqb q SELECT_INDEXES then rows_of ks (index_rows c)
           else []
       | _ => []
       end.

Fixpoint strip_prefix (p s : string) : option string :=
  match p, s with
  | EmptyString, _ => Some s
  | String a p', String b s' => if Ascii.eqb a b then strip_prefix p' s' else None
  | String _ _, EmptyString => None
  end.

Fixpoint first_line (s : string) : string :=
  match s with
  | EmptyString => EmptyString
  | String c s' => if Ascii.eqb c Py.newline then EmptyString else String c (first_line s')
  end.

(** A statement that [fail] names is refused with that exception; a CREATE
    KEYSPACE statement registers the keyspace; anything else is accepted and
    leaves the catalog as it is. *)
Definition run (fail : string -> option exn) (q : string) (c : cluster)
  : cluster * option exn :=
  match fail q with
  | Some e => (c, Some e)
  | None =>
      match strip_prefix (INDENT ++ "CREATE KEYSPACE ") q with
      | Some rest =>
          ({| keyspace_rows := first_line rest :: keyspace_rows c;
              columnfamily_rows := columnfamily_rows c;
              index_rows := index_rows c |}, None)
      | None => (c, None)
      end
  end.

Definition memory (fail : string -> option exn) : Connection :=
  {| catalog := cluster; select := answer; run_ddl := run fail |}.

Definition accepting : Connection := memory (fun _ => None).

(** Every CREATE TABLE is refused with the given exception. *)
Definition refusing_tables (e : exn) : Connection :=
  memory (fun q => if String.prefix "CREATE TABLE" q then Some e else None).

(** Every CREATE KEYSPACE, resp. CREATE INDEX, is refused with the given
    exception. *)
Definition refusing_keyspaces (e : exn) : Connection :=
  memory (fun q =>
            if String.prefix (INDENT ++ "CREATE KEYSPACE") q then Some e else None).

Definition refusing_indexes (e : exn) : Connection :=
  memory (fun q => if String.prefix "CREATE INDEX" q then Some e else None).

Definition empty : cluster :=
  {| keyspace_rows := []; columnfamily_rows := []; index_rows := [] |}.

Definition column (name type : string) (pk part idx : bool) (order : option string)
  : Column :=
  {| db_field_name := name;
     get_column_def := Py.quoted name ++ " " ++ type;
     primary_key := pk;
     partition_key := part;
     index := idx;
     clustering_order := order |}.

Definition pk1 : Column := column "pk1" "uuid" true true false None.
Definition ck1 : Column := column "ck1" "int" true false false None.
Definition ck2 : Column := column "ck2" "int" true false false None.
Definition email : Column := column "email" "text" false false true None.

(** Partition key [pk1], clustering keys [ck1] then [ck2] in the default
    order, and an indexed column. *)
Definition events_model : Model :=
  {| __abstract__ := false;
     column_family_name :=
       fun include_keyspace => if include_keyspace then "ks.events" else "events";
     _get_keyspace := "ks";
     _columns := [("pk1", pk1); ("email", email); ("ck1", ck1); ("ck2", ck2)];
     _clustering_keys := [("ck1", ck1); ("ck2", ck2)];
     __read_repair_chance__ := "0.2" |}.

Definition abstract_model : Model :=
  {| __abstract__ := true;
     column_family_name :=
       fun include_keyspace => if include_keyspace then "ks.base" else "base";
     _get_keyspace := "ks";
     _columns := [("pk1", pk1)];
     _clustering_keys := [];
     __read_repair_chance__ := "0.2" |}.

(** A cluster that has the keyspace, the table and the index of
    [events_model]. *)
Definition populated : cluster :=
  {| keyspace_rows := ["system"; "ks"];
     columnfamily_rows := [("ks", "events")];
     index_rows := [("ks", "events.index_events_email")] |}.

(** [empty] after the keyspace of [events_model] has been created, and
    what creating it did on the connection. *)
Definition with_keyspace : cluster :=
  {| keyspace_rows := ["ks"]; columnfamily_rows := []; index_rows := [] |}.

Definition keyspace_events : list event :=
  [Query SELECT_KEYSPACES [] [];
   Execute (create_keyspace_query "ks" "SimpleStrategy" (PInt 3) true [])].

Definition table_events : list event :=
  [Query SELECT_COLUMNFAMILIES ["ks"] [];
   Execute (create_table_query events_model)].

(** The message with which the cluster refuses a table it has. *)
Definition already_exists_message : string :=
  "Cannot add already existing column family " ++ Py.quoted "events" ++
  " to keyspace " ++ Py.quoted "ks".

End Sample.

(** * Properties *)

(** ** Strings *)

Module PyFacts.

Lemma sapp_assoc (a b c : string) : (a ++ b) ++ c = a ++ b ++ c.
Proof. induction a as [|x a IH]; simpl; [reflexivity | now rewrite IH]. Qed.

Lemma sapp_nil_r (a : string) : a ++ "" = a.
Proof. induction a as [|x a IH]; simpl; [reflexivity | now rewrite IH]. Qed.

Lemma last_char_app (s t : string) :
  t <> "" -> Py.last_char (s ++ t) = Py.last_char t.
Proof.
  intros Ht. induction s as [|x s IH]; simpl; [reflexivity|].
  rewrite IH. destruct (s ++ t) eqn:E; [|reflexivity].
  destruct s; simpl in E; [congruence | discriminate].
Qed.

Lemma prefix_iff (p s : string) :
  String.prefix p s = true <-> exists t, s = p ++ t.
Proof.
  revert s. induction p as [|a p IH]; intros s; simpl.
  - destruct s; split; intros; eauto.
  - destruct s as [|b s]; simpl.
    + split; [discriminate | intros [t Ht]; discriminate].
    + destruct (ascii_dec a b) as [->|Hab].
      * split.
        -- intros H. apply IH in H as [t ->]. now exists t.
        -- intros [t Ht]. apply IH. exists t. congruence.
      * split; [discriminate | intros [t Ht]; congruence].
Qed.

Lemma str_in_unfold (sub s : string) :
  Py.str_in sub s =
  if String.prefix sub s then true
  else match s with
       | EmptyString => false
       | String _ s' => Py.str_in sub s'
       end.
Proof. destruct s; reflexivity. Qed.

Lemma str_in_iff (sub s : string) :
  Py.str_in sub s = true <-> exists a b, s = a ++ sub ++ b.
Proof.
  induction s as [|x s IH]; rewrite str_in_unfold.
  - destruct (String.prefix sub "") eqn:P.
    + split; [|reflexivity]. intros _. apply prefix_iff in P as [t Ht].
      exists "", t. exact Ht.
    + split; [discriminate|]. intros (a & b & H).
      destruct a; simpl in H; [|discriminate].
      assert (String.prefix sub "" = true) by (apply prefix_iff; eauto).
      congruence.
  - destruct (String.prefix sub (String x s)) eqn:P.
    + split; [|reflexivity]. intros _. apply prefix_iff in P as [t Ht].
      exists "", t. exact Ht.
    + split.
      * intros H. apply IH in H as (a & b & ->).
        exists (String x a), b. reflexivity.
      * intros (a & b & H). destruct a as [|y a]; simpl in H.
        -- assert (String.prefix sub (String x s) = true)
             by (apply prefix_iff; eauto).
           congruence.
        -- injection H as _ ->. apply IH. eauto.
Qed.

Lemma endswith_unfold (s suf : string) :
  Py.endswith s suf =
  if String.eqb s suf then true
  else match s with
       | EmptyString => false
       | String _ s' => Py.endswith s' suf
       end.
Proof. destruct s; reflexivity. Qed.

Lemma endswith_iff (s suf : string) :
  Py.endswith s suf = true <-> exists p, s = p ++ suf.
Proof.
  induction s as [|x s IH]; rewrite endswith_unfold.
  - destruct (String.eqb_spec "" suf) as [<-|Hn].
    + split; [exists ""; reflexivity | reflexivity].
    + split; [discriminate|]. intros [p Hp].
      destruct p; simpl in Hp; [congruence | discriminate].
  - destruct (String.eqb_spec (String x s) suf) as [<-|Hn].
    + split; [exists ""; reflexivity | reflexivity].
    + split.
      * intros H. apply IH in H as [p ->]. exists (String x p). reflexivity.
      * intros [p Hp]. destruct p as [|y p]; simpl in Hp; [congruence|].
        injection Hp as _ ->. apply IH. eauto.
Qed.

Lemma replace_char_app (a b : ascii) (s t : string) :
  Py.replace_char a b (s ++ t) = Py.replace_char a b s ++ Py.replace_char a b t.
Proof. induction s as [|x s IH]; simpl; [reflexivity | now rewrite IH]. Qed.

Lemma list_in_iff (x : string) (l : list string) :
  Py.list_in x l = true <-> In x l.
Proof.
  unfold Py.list_in. rewrite existsb_exists. split.
  - intros (y & Hy & E). apply String.eqb_eq in E. now subst.
  - intros H. exists x. split; [exact H | apply String.eqb_refl].
Qed.

Lemma list_in_false (x : string) (l : list string) :
  ~ In x l -> Py.list_in x l = false.
Proof.
  intros H. destruct (Py.list_in x l) eqn:E; [|reflexivity].
  apply list_in_iff in E. contradiction.
Qed.

Lemma join_cons (sep x : string) (l : list string) :
  l <> [] -> Py.join sep (x :: l) = x ++ sep ++ Py.join sep l.
Proof. destruct l; [congruence | reflexivity]. Qed.

Lemma join_snoc (sep x : string) (l : list string) :
  l <> [] -> Py.join sep (l ++ [x]) = Py.join sep l ++ sep ++ x.
Proof.
  induction l as [|y l IH]; [congruence|]. intros _.
  destruct l as [|z l]; [reflexivity|].
  change ((y :: z :: l) ++ [x])%list with (y :: ((z :: l) ++ [x]))%list.
  rewrite join_cons by (simpl; discriminate).
  rewrite IH by discriminate.
  rewrite (join_cons sep y (z :: l)) by discriminate.
  now rewrite !sapp_assoc.
Qed.

Lemma str_in_app_r (x s t : string) :
  Py.str_in x t = true -> Py.str_in x (s ++ t) = true.
Proof.
  intros H. apply str_in_iff in H as (a & b & ->). apply str_in_iff.
  exists (s ++ a), b. now rewrite sapp_assoc.
Qed.

Lemma str_in_app_l (x s t : string) :
  Py.str_in x s = true -> Py.str_in x (s ++ t) = true.
Proof.
  intros H. apply str_in_iff in H as (a & b & ->). apply str_in_iff.
  exists a, (b ++ t). now rewrite !sapp_assoc.
Qed.

Lemma str_in_self (x : string) : Py.str_in x x = true.
Proof. apply str_in_iff. exists "", "". simpl. now rewrite sapp_nil_r. Qed.

Lemma join_in (sep x : string) (l : list string) :
  In x l -> exists a b, Py.join sep l = a ++ x ++ b.
Proof.
  induction l as [|y l IH]; [contradiction|].
  intros [->|H].
  - destruct l as [|z l].
    + exists "", "". simpl. now rewrite sapp_nil_r.
    + exists "", (sep ++ Py.join sep (z :: l)). reflexivity.
  - destruct (IH H) as (a & b & E).
    destruct l as [|z l]; [contradiction|].
    exists (y ++ sep ++ a), b.
    rewrite join_cons by discriminate. rewrite E.
    now rewrite !sapp_assoc.
Qed.

End PyFacts.

(** ** Dicts *)

Module DictFacts.

Lemma get_set_same (k : string) (v : pyval) (d : pydict) :
  dict_get k (dict_set k v d) = Some v.
Proof.
  induction d as [|[k' v'] d IH]; simpl.
  - now rewrite String.eqb_refl.
  - destruct (String.eqb_spec k k') as [->|Hn]; simpl.
    + now rewrite String.eqb_refl.
    + destruct (String.eqb_spec k k'); [contradiction | exact IH].
Qed.

Lemma get_set_other (k k' : string) (v : pyval) (d : pydict) :
  k <> k' -> dict_get k (dict_set k' v d) = dict_get k d.
Proof.
  intros Hn. induction d as [|[k2 v2] d IH]; simpl.
  - destruct (String.eqb_spec k k'); [contradiction | reflexivity].
  - destruct (String.eqb_spec k' k2) as [->|Hn2]; simpl.
    + destruct (String.eqb_spec k k2); [contradiction | reflexivity].
    + now rewrite IH.
Qed.

Lemma get_update_absent (k : string) (e d : pydict) :
  ~ In k (dict_keys e) -> dict_get k (dict_update d e) = dict_get k d.
Proof.
  revert d. induction e as [|[k1 v1] e IH]; intros d H; [reflexivity|].
  simpl in *. unfold dict_update in *. simpl.
  rewrite IH by tauto. apply get_set_other. intros ->. tauto.
Qed.

Lemma get_update_present (k : string) (v : pyval) (e d : pydict) :
  NoDup (dict_keys e) -> In (k, v) e -> dict_get k (dict_update d e) = Some v.
Proof.
  revert d. induction e as [|[k1 v1] e IH]; intros d ND H; [contradiction|].
  simpl in ND. inversion ND as [|? ? Hk ND']; subst.
  destruct H as [E|H].
  - injection E as -> ->.
    change (dict_update d ((k, v) :: e)) with (dict_update (dict_set k v d) e).
    rewrite get_update_absent by exact Hk. apply get_set_same.
  - change (dict_update d ((k1, v1) :: e)) with (dict_update (dict_set k1 v1 d) e).
    now apply IH.
Qed.

Lemma get_in (k : string) (v : pyval) (d : pydict) :
  dict_get k d = Some v -> In (k, v) d.
Proof.
  induction d as [|[k' v'] d IH]; simpl; [discriminate|].
  destruct (String.eqb_spec k k') as [->|Hn].
  - intros E. injection E as ->. now left.
  - intros E. right. now apply IH.
Qed.

End DictFacts.

(** ** Runs of the monad *)

Section RunFacts.

Context {conn : Connection}.

Lemma bind_returned {A B : Type} (m : M A) (k : A -> M B) c a c1 ev1 :
  m c = (Returned a, c1, ev1) ->
  bind m k c =
  (outcome_of (k a c1), catalog_of (k a c1), (ev1 ++ events_of (k a c1))%list).
Proof.
  intros H. unfold bind. rewrite H.
  destruct (k a c1) as [[r c2] ev2]. reflexivity.
Qed.

Lemma bind_raised {A B : Type} (m : M A) (k : A -> M B) c e c1 ev1 :
  m c = (Raised e, c1, ev1) -> bind m k c = (Raised e, c1, ev1).
Proof. intros H. unfold bind. now rewrite H. Qed.

Lemma bind_events_prefix {A B : Type} (m : M A) (k : A -> M B) c :
  exists rest, events_of (bind m k c) = (events_of (m c) ++ rest)%list.
Proof.
  destruct (m c) as [[[a|e] c1] ev1] eqn:E.
  - rewrite (bind_returned _ _ _ _ _ _ E). eexists. reflexivity.
  - rewrite (bind_raised _ _ _ _ _ _ E). exists []. simpl. now rewrite app_nil_r.
Qed.

Lemma bind_ret {A B : Type} (a : A) (k : A -> M B) c :
  bind (ret a) k c = k a c.
Proof. unfold bind, ret. now destruct (k a c) as [[r c2] ev2]. Qed.

Lemma bind_execute {B : Type} (q : string) (k : unit -> M B) c :
  bind (execute q) k c =
  match run_ddl q c with
  | (c', None) =>
      (outcome_of (k tt c'), catalog_of (k tt c'), Execute q :: events_of (k tt c'))
  | (c', Some e) => (Raised e, c', [Execute q])
  end.
Proof.
  unfold bind, execute. destruct (run_ddl q c) as [c' [e|]]; [reflexivity|].
  now destruct (k tt c') as [[r c2] ev2].
Qed.

Lemma run_eta {A : Type} (r : outcome A * catalog * list event) :
  r = (outcome_of r, catalog_of r, events_of r).
Proof. now destruct r as [[? ?] ?]. Qed.

(** [create_keyspace], case by case. *)
Lemma create_keyspace_run name strategy_class replication_factor durable_writes
      replication_values c :
  let rows := select SELECT_KEYSPACES [] c in
  let q := create_keyspace_query name strategy_class replication_factor
             durable_writes replication_values in
  create_keyspace name strategy_class replication_factor durable_writes
                  replication_values c =
  if Py.list_in name rows then (Returned tt, c, [Query SELECT_KEYSPACES [] rows])
  else match run_ddl q c with
       | (c', None) =>
           (Returned tt, c', [Query SELECT_KEYSPACES [] rows; Execute q])
       | (c', Some e) =>
           (Raised e, c', [Query SELECT_KEYSPACES [] rows; Execute q])
       end.
Proof.
  intros rows q. unfold create_keyspace, bind, con_execute, execute, ret.
  fold rows. fold q.
  destruct (Py.list_in name rows); simpl; [reflexivity|].
  destruct (run_ddl q c) as [c' [e|]]; reflexivity.
Qed.

Lemma create_keyspace_executes name strategy_class replication_factor
      durable_writes replication_values c q :
  In (Execute q)
     (events_of (create_keyspace name strategy_class replication_factor
                                 durable_writes replication_values c)) ->
  q = create_keyspace_query name strategy_class replication_factor
                            durable_writes replication_values.
Proof.
  rewrite create_keyspace_run.
  destruct (Py.list_in name _).
  - simpl. intros [H|[]]. discriminate.
  - destruct (run_ddl _ c) as [c' [e|]]; simpl;
      intros [H|[H|[]]]; congruence.
Qed.

End RunFacts.

(** ** The text of CREATE KEYSPACE *)

Module KeyspaceText.

Lemma last_char_app_r (s t : string) (x : ascii) :
  Py.last_char t = Some x -> Py.last_char (s ++ t) = Some x.
Proof.
  intros H. rewrite PyFacts.last_char_app; [exact H|].
  intros ->. discriminate.
Qed.

Lemma not_endswith (s suf : string) (x y : ascii) :
  Py.last_char s = Some x -> Py.last_char suf = Some y -> x <> y ->
  Py.endswith s suf = false.
Proof.
  intros Hs Hsuf Hxy. destruct (Py.endswith s suf) eqn:E; [|reflexivity].
  apply PyFacts.endswith_iff in E as [p ->].
  rewrite (last_char_app_r p suf y Hsuf) in Hs. congruence.
Qed.

Lemma endswith_app (s suf : string) : Py.endswith (s ++ suf) suf = true.
Proof. apply PyFacts.endswith_iff. now exists s. Qed.

Lemma template_last name m : Py.last_char (keyspace_template name m) = Some " "%char.
Proof. unfold keyspace_template. repeat apply last_char_app_r. reflexivity. Qed.

Lemma query_simple name rf dw ex :
  create_keyspace_query name "SimpleStrategy" rf dw ex =
  keyspace_template name (replication_map "SimpleStrategy" rf ex).
Proof. reflexivity. Qed.

Lemma query_other name sc rf dw ex :
  sc <> "SimpleStrategy" ->
  create_keyspace_query name sc rf dw ex =
  keyspace_template name (replication_map sc rf ex) ++
  " AND DURABLE_WRITES = " ++ (if dw then "true" else "false").
Proof.
  intros H. unfold create_keyspace_query.
  destruct (String.eqb_spec sc "SimpleStrategy") as [E|_]; [contradiction|].
  reflexivity.
Qed.

Lemma durable_writes_clause name sc rf dw ex :
  has_durable_writes_clause (create_keyspace_query name sc rf dw ex) =
  negb (String.eqb sc "SimpleStrategy").
Proof.
  destruct (String.eqb_spec sc "SimpleStrategy") as [->|Hn]; simpl negb.
  - rewrite query_simple. unfold has_durable_writes_clause.
    rewrite !(not_endswith _ _ " "%char "e"%char);
      try apply template_last; try reflexivity; discriminate.
  - rewrite (query_other _ _ _ _ _ Hn). unfold has_durable_writes_clause.
    destruct dw.
    + change (" AND DURABLE_WRITES = " ++ "true") with " AND DURABLE_WRITES = true".
      now rewrite endswith_app.
    + change (" AND DURABLE_WRITES = " ++ "false") with " AND DURABLE_WRITES = false".
      rewrite endswith_app. apply orb_true_r.
Qed.

End KeyspaceText.

(** ** Keyspaces *)

Section KeyspaceClaims.

Context {conn : Connection}.

(** C5.  A CREATE KEYSPACE statement issued by [create_keyspace] ends with
    the clause [AND DURABLE_WRITES = true] or [AND DURABLE_WRITES = false]
    if and only if the strategy class argument is not ["SimpleStrategy"];
    when it is there, it prints the [durable_writes] argument.  A call with
    every default has the strategy ["SimpleStrategy"], hence no clause. *)
Theorem durable_writes_iff_not_simple_strategy
        name strategy_class replication_factor durable_writes replication_values c q :
  In (Execute q)
     (events_of (create_keyspace name strategy_class replication_factor
                                 durable_writes replication_values c)) ->
  (has_durable_writes_clause q = true <-> strategy_class <> "SimpleStrategy") /\
  (strategy_class <> "SimpleStrategy" ->
   Py.endswith q (" AND DURABLE_WRITES = " ++
                  (if durable_writes then "true" else "false")) = true).
Proof.
  intros H. apply create_keyspace_executes in H. subst q. split.
  - rewrite KeyspaceText.durable_writes_clause.
    destruct (String.eqb_spec strategy_class "SimpleStrategy"); simpl;
      split; congruence.
  - intros Hn. rewrite (KeyspaceText.query_other _ _ _ _ _ Hn).
    apply KeyspaceText.endswith_app.
Qed.

(** C6.  The replication map of [create_keyspace] holds every extra
    option, the strategy class under ['class'] and the factor under
    ['replication_factor'] unless an extra option has that key, and the
    statement issued carries the map: the statement contains the rendered
    map, and so the rendered text of each of its entries. *)
Theorem replication_map_merges_extras
        name strategy_class replication_factor durable_writes replication_values c q :
  NoDup (dict_keys replication_values) ->
  In (Execute q)
     (events_of (create_keyspace name strategy_class replication_factor
                                 durable_writes replication_values c)) ->
  let rm := replication_map strategy_class replication_factor replication_values in
  (forall k v, In (k, v) replication_values -> dict_get k rm = Some v) /\
  (~ In "class" (dict_keys replication_values) ->
   dict_get "class" rm = Some (PStr strategy_class)) /\
  (~ In "replication_factor" (dict_keys replication_values) ->
   dict_get "replication_factor" rm = Some replication_factor) /\
  (exists post,
     q = INDENT ++ "CREATE KEYSPACE " ++ name ++ INDENT ++ "WITH REPLICATION = " ++
         Py.replace_char Py.dquote Py.squote (dumps rm) ++ post) /\
  (forall k v, dict_get k rm = Some v ->
     Py.str_in (Py.replace_char Py.dquote Py.squote (dumps_item (k, v))) q = true).
Proof.
  intros ND H rm. apply create_keyspace_executes in H.
  assert (Hq : exists post,
     q = INDENT ++ "CREATE KEYSPACE " ++ name ++ INDENT ++ "WITH REPLICATION = " ++
         Py.replace_char Py.dquote Py.squote (dumps rm) ++ post).
  { subst q. unfold create_keyspace_query. fold rm. unfold keyspace_template.
    destruct (negb _).
    - exists (INDENT ++ " AND DURABLE_WRITES = " ++
              (if durable_writes then "true" else "false")).
      rewrite !PyFacts.sapp_assoc. reflexivity.
    - exists INDENT. reflexivity. }
  repeat split.
  - intros k v Hin. now apply DictFacts.get_update_present.
  - intros Hn. unfold rm, replication_map.
    rewrite DictFacts.get_update_absent by exact Hn. reflexivity.
  - intros Hn. unfold rm, replication_map.
    rewrite DictFacts.get_update_absent by exact Hn. reflexivity.
  - exact Hq.
  - intros k v Hget. apply DictFacts.get_in in Hget.
    destruct Hq as [post Hq]. rewrite Hq. clear Hq H.
    apply (in_map dumps_item) in Hget.
    destruct (PyFacts.join_in ", " _ _ Hget) as (a & b & E).
    do 5 apply PyFacts.str_in_app_r. apply PyFacts.str_in_app_l.
    unfold dumps. rewrite E. rewrite !PyFacts.replace_char_app.
    apply PyFacts.str_in_app_r. apply PyFacts.str_in_app_l.
    apply PyFacts.str_in_app_r. apply PyFacts.str_in_app_l.
    apply PyFacts.str_in_self.
Qed.

(** C9.  On a cluster that lists each keyspace once and whose successful
    CREATE KEYSPACE adds the name to the list, a call of [create_keyspace]
    that returns leaves exactly one keyspace of that name, and the same
    call made again reads the keyspace names, finds the name there, issues
    no statement and returns without error, the catalog untouched. *)
Theorem create_keyspace_idempotent
        name strategy_class replication_factor durable_writes replication_values
        c c1 ev1 :
  NoDup (select SELECT_KEYSPACES [] c) ->
  (forall c',
     run_ddl (create_keyspace_query name strategy_class replication_factor
                                    durable_writes replication_values) c = (c', None) ->
     Permutation (select SELECT_KEYSPACES [] c') (name :: select SELECT_KEYSPACES [] c)) ->
  create_keyspace name strategy_class replication_factor durable_writes
                  replication_values c = (Returned tt, c1, ev1) ->
  create_keyspace name strategy_class replication_factor durable_writes
                  replication_values c1 =
    (Returned tt, c1, [Query SELECT_KEYSPACES [] (select SELECT_KEYSPACES [] c1)]) /\
  count_occ string_dec (select SELECT_KEYSPACES [] c1) name = 1%nat.
Proof.
  intros ND Hadd Hrun. rewrite create_keyspace_run in Hrun.
  assert (Hin : In name (select SELECT_KEYSPACES [] c1) /\
                count_occ string_dec (select SELECT_KEYSPACES [] c1) name = 1%nat).
  { destruct (Py.list_in name (select SELECT_KEYSPACES [] c)) eqn:E.
    - injection Hrun as <- _. apply PyFacts.list_in_iff in E. split; [exact E|].
      apply (proj1 (NoDup_count_occ string_dec _)) with (x := name) in ND.
      apply (count_occ_In string_dec) in E. lia.
    - destruct (run_ddl _ c) as [c' [e|]] eqn:R; [discriminate|].
      injection Hrun as <- _. specialize (Hadd _ eq_refl). split.
      + apply (Permutation_in name (Permutation_sym Hadd)). now left.
      + rewrite (Permutation_count_occ string_dec) in Hadd. rewrite Hadd.
        simpl. destruct (string_dec name name) as [_|Hn]; [|contradiction].
        f_equal. apply count_occ_not_In. intros Habs.
        apply PyFacts.list_in_iff in Habs. congruence. }
  destruct Hin as [Hin Hcount]. split; [|exact Hcount].
  rewrite create_keyspace_run.
  apply PyFacts.list_in_iff in Hin. now rewrite Hin.
Qed.

End KeyspaceClaims.

(** ** The text of CREATE TABLE *)

Module TableText.

Lemma fold_add_column (l : list Column) (acc : column_acc) :
  fold_left add_column l acc =
  {| pkeys := pkeys acc ++ map quoted_name (filter is_partition_key l);
     ckeys := ckeys acc ++ map quoted_name (filter is_clustering_key l);
     qtypes := qtypes acc ++ map get_column_def l |}.
Proof.
  revert acc. induction l as [|col l IH]; intros acc.
  - simpl. rewrite !app_nil_r. destruct acc; reflexivity.
  - simpl fold_left. rewrite IH. unfold add_column at 1 2 3.
    unfold is_partition_key, is_clustering_key. simpl filter.
    destruct (primary_key col), (partition_key col); simpl;
      rewrite <- ?app_assoc; reflexivity.
Qed.

Lemma collect_columns_eq (model : Model) :
  collect_columns model =
  {| pkeys := map quoted_name (filter is_partition_key (values (_columns model)));
     ckeys := map quoted_name (filter is_clustering_key (values (_columns model)));
     qtypes := map get_column_def (values (_columns model)) |}.
Proof. unfold collect_columns. now rewrite fold_add_column. Qed.

Lemma collect_columns_eq_pkeys (model : Model) :
  pkeys (collect_columns model) =
  map quoted_name (filter is_partition_key (values (_columns model))).
Proof. now rewrite collect_columns_eq. Qed.

Lemma collect_columns_eq_ckeys (model : Model) :
  ckeys (collect_columns model) =
  map quoted_name (filter is_clustering_key (values (_columns model))).
Proof. now rewrite collect_columns_eq. Qed.

Lemma collect_columns_eq_qtypes (model : Model) :
  qtypes (collect_columns model) = map get_column_def (values (_columns model)).
Proof. now rewrite collect_columns_eq. Qed.

(** The tuple of partition keys and the clustering keys form one
    comma-separated list. *)
Lemma primary_key_clause_join (pks cks : list string) :
  primary_key_clause pks cks =
  "PRIMARY KEY (" ++ Py.join ", " (("(" ++ Py.join ", " pks ++ ")") :: cks) ++ ")".
Proof.
  unfold primary_key_clause. destruct cks as [|x cks].
  - simpl. now rewrite !PyFacts.sapp_assoc.
  - rewrite (PyFacts.join_cons ", " _ (x :: cks)) by discriminate.
    simpl. now rewrite !PyFacts.sapp_assoc.
Qed.

Lemma with_clauses_join (model : Model) :
  Py.join " AND " (with_clauses model) =
  "read_repair_chance = " ++ __read_repair_chance__ model ++
  match values (_clustering_keys model) with
  | [] => ""
  | _ :: _ =>
      " AND clustering order by (" ++
      Py.join ", " (clustering_order_items model) ++ ")"
  end.
Proof.
  unfold with_clauses, clustering_order_items.
  destruct (values (_clustering_keys model)) as [|x l].
  - simpl. now rewrite PyFacts.sapp_nil_r.
  - simpl map. cbv iota. simpl. now rewrite !PyFacts.sapp_assoc.
Qed.

Lemma create_table_query_eq (model : Model) :
  create_table_query model =
  "CREATE TABLE " ++ column_family_name model true ++ " (" ++
  Py.join ", "
    (map get_column_def (values (_columns model)) ++
     [primary_key_clause
        (map quoted_name (filter is_partition_key (values (_columns model))))
        (map quoted_name (filter is_clustering_key (values (_columns model))))]) ++
  ") WITH " ++ Py.join " AND " (with_clauses model).
Proof.
  unfold create_table_query. rewrite collect_columns_eq.
  cbn [pkeys ckeys qtypes app Py.join String.concat].
  now rewrite !PyFacts.sapp_assoc.
Qed.

End TableText.

(** ** Runs of the table functions *)

Section TableRuns.

Context {conn : Connection}.

(** [table_step], case by case. *)
Lemma table_step_run (model : Model) c :
  let rows := select SELECT_COLUMNFAMILIES [_get_keyspace model] c in
  let q := create_table_query model in
  let asked := Query SELECT_COLUMNFAMILIES [_get_keyspace model] rows in
  table_step model c =
  if Py.list_in (column_family_name model false) rows then (Returned tt, c, [asked])
  else match run_ddl q c with
       | (c', None) => (Returned tt, c', [asked; Execute q])
       | (c', Some (CQLEngineException msg)) =>
           if Py.str_in ALREADY_EXISTS msg then (Returned tt, c', [asked; Execute q])
           else (Raised (CQLEngineException msg), c', [asked; Execute q])
       | (c', Some (ForeignException cls msg)) =>
           (Raised (ForeignException cls msg), c', [asked; Execute q])
       end.
Proof.
  intros rows q asked.
  unfold table_step, bind, con_execute, try_except_CQLEngineException, execute,
    ret, raise.
  fold rows. fold q. fold asked.
  destruct (Py.list_in (column_family_name model false) rows); simpl; [reflexivity|].
  destruct (run_ddl q c) as [c' [[msg|cls msg]|]]; simpl; try reflexivity.
  destruct (Py.str_in ALREADY_EXISTS msg); reflexivity.
Qed.

(** A loop whose body skips an element or executes its statement issues
    the statements of the elements it does not skip, in order, and stops
    at the first that fails. *)
Lemma for_each_execute {X : Type} (skip : X -> bool) (stmt : X -> string)
      (l : list X) c :
  let todo := map stmt (filter (fun x => negb (skip x)) l) in
  let r := for_each l (fun x => if skip x then ret tt else execute (stmt x)) c in
  exists k,
    events_of r = map Execute (firstn k todo) /\
    (outcome_of r = Returned tt -> firstn k todo = todo).
Proof.
  revert c. induction l as [|x l IH]; intros c.
  - exists 0%nat. split; reflexivity.
  - cbn [for_each filter]. destruct (skip x) eqn:Hskip; cbn [negb].
    + rewrite bind_ret. exact (IH c).
    + rewrite bind_execute. cbn [map].
      destruct (run_ddl (stmt x) c) as [c' [e|]].
      * exists 1%nat. split; [reflexivity | discriminate].
      * destruct (IH c') as (k & Hev & Hout). exists (S k).
        unfold events_of, outcome_of in *. cbn [fst snd firstn map] in *.
        split; [now rewrite Hev | intros H; now rewrite Hout].
Qed.

(** [index_step]: one read, then the CREATE INDEX statements. *)
Lemma index_step_run (model : Model) c :
  let idx_names := select SELECT_INDEXES [_get_keyspace model] c in
  let expected :=
    map (create_index_query (column_family_name model true)
                            (column_family_name model false))
        (pending_indexes model idx_names) in
  exists k,
    events_of (index_step model c) =
      Query SELECT_INDEXES [_get_keyspace model] idx_names ::
      map Execute (firstn k expected) /\
    (outcome_of (index_step model c) = Returned tt -> firstn k expected = expected).
Proof.
  intros idx_names expected. unfold index_step.
  set (skip := fun column : Column =>
         Py.list_in (column_family_name model false ++ "." ++
                     index_name (column_family_name model false) column) idx_names).
  set (stmt := create_index_query (column_family_name model true)
                                  (column_family_name model false)).
  destruct (for_each_execute skip stmt (filter index (values (_columns model))) c)
    as (k & Hev & Hout).
  exists k. unfold bind, con_execute. fold idx_names.
  change (fun column : Column =>
            if Py.list_in (column_family_name model false ++ "." ++
                 index_name (column_family_name model false) column) idx_names
            then ret tt
            else execute (create_index_query (column_family_name model true)
                            (column_family_name model false) column))
    with (fun column : Column => if skip column then ret tt else execute (stmt column)).
  destruct (for_each _ _ c) as [[r c2] ev2]. simpl in *.
  split; [now rewrite Hev | exact Hout].
Qed.

Lemma create_table_concrete (model : Model) (cmk : bool) c :
  __abstract__ model = false ->
  create_table model cmk c =
  ((keyspace_step model cmk ;; table_step model) ;; index_step model) c.
Proof.
  intros H. unfold create_table. rewrite H. unfold bind.
  destruct (keyspace_step model cmk c) as [[[[]|e] c1] ev1]; [|reflexivity].
  destruct (table_step model c1) as [[[[]|e] c2] ev2]; [|reflexivity].
  destruct (index_step model c2) as [[r c3] ev3].
  now rewrite app_assoc.
Qed.

(** When the keyspace step returns and the catalog does not list the
    table, the CREATE TABLE statement is the next thing executed. *)
Lemma create_table_executes_query (model : Model) (cmk : bool) c c1 ev1 :
  __abstract__ model = false ->
  keyspace_step model cmk c = (Returned tt, c1, ev1) ->
  ~ In (column_family_name model false)
       (select SELECT_COLUMNFAMILIES [_get_keyspace model] c1) ->
  exists rest,
    events_of (create_table model cmk c) =
    (ev1 ++
     Query SELECT_COLUMNFAMILIES [_get_keyspace model]
           (select SELECT_COLUMNFAMILIES [_get_keyspace model] c1) ::
     Execute (create_table_query model) :: rest)%list.
Proof.
  intros Ha Hks Hnot. unfold create_table. rewrite Ha.
  rewrite (bind_returned _ _ _ _ _ _ Hks). simpl events_of.
  destruct (bind_events_prefix (table_step model) (fun _ => index_step model) c1)
    as [rest Hrest].
  rewrite Hrest. rewrite table_step_run.
  rewrite (PyFacts.list_in_false _ _ Hnot).
  destruct (run_ddl (create_table_query model) c1) as [c' [[msg|cls msg]|]];
    [destruct (Py.str_in ALREADY_EXISTS msg)| |]; simpl; eauto.
Qed.

End TableRuns.

(** ** Tables and indexes *)

Section TableClaims.

Context {conn : Connection}.

(** C1 (as amended).  When [create_table] reaches a non-abstract model
    whose bare table name the catalog does not list, the statement it
    executes has, as the last item of its column list, the clause
    [PRIMARY KEY (...)] holding first the parenthesized tuple of the
    partition-key columns in declaration order and then the
    clustering-key columns in declaration order, every name between
    double quotes. *)
Theorem primary_key_partition_then_clustering (model : Model) (cmk : bool) c c1 ev1 :
  __abstract__ model = false ->
  keyspace_step model cmk c = (Returned tt, c1, ev1) ->
  ~ In (column_family_name model false)
       (select SELECT_COLUMNFAMILIES [_get_keyspace model] c1) ->
  let columns := values (_columns model) in
  let pks := map quoted_name (filter is_partition_key columns) in
  let cks := map quoted_name (filter is_clustering_key columns) in
  let clause :=
    "PRIMARY KEY (" ++ Py.join ", " (("(" ++ Py.join ", " pks ++ ")") :: cks) ++ ")" in
  exists rest,
    events_of (create_table model cmk c) =
      (ev1 ++
       Query SELECT_COLUMNFAMILIES [_get_keyspace model]
             (select SELECT_COLUMNFAMILIES [_get_keyspace model] c1) ::
       Execute (create_table_query model) :: rest)%list /\
    create_table_query model =
      "CREATE TABLE " ++ column_family_name model true ++ " (" ++
      Py.join ", " (map get_column_def columns ++ [clause]) ++
      ") WITH " ++ Py.join " AND " (with_clauses model).
Proof.
  intros Ha Hks Hnot columns pks cks clause.
  destruct (create_table_executes_query model cmk c c1 ev1 Ha Hks Hnot)
    as [rest Hev].
  exists rest. split; [exact Hev|].
  rewrite TableText.create_table_query_eq.
  now rewrite TableText.primary_key_clause_join.
Qed.

(** C2.  For an abstract model [create_table] raises the package's
    exception at once: nothing is read, nothing is executed and the
    catalog is the one it was given, whatever [create_missing_keyspace]
    says. *)
Theorem abstract_model_is_refused (model : Model) (cmk : bool) c :
  __abstract__ model = true ->
  create_table model cmk c =
  (Raised (CQLEngineException "cannot create table from abstract model"), c, []).
Proof. intros H. unfold create_table. now rewrite H. Qed.

(** C3 (as amended).  When the execution of CREATE TABLE fails with a
    [CQLEngineException] whose message contains the already-exists text,
    [create_table] goes on with the index step, which starts by reading the
    index names; a [CQLEngineException] without that text reaches the
    caller unchanged; an exception of another class reaches the caller
    unchanged whatever its message. *)
Theorem create_table_failure_handling (model : Model) (cmk : bool) c c1 ev1 c2 e :
  __abstract__ model = false ->
  keyspace_step model cmk c = (Returned tt, c1, ev1) ->
  ~ In (column_family_name model false)
       (select SELECT_COLUMNFAMILIES [_get_keyspace model] c1) ->
  run_ddl (create_table_query model) c1 = (c2, Some e) ->
  let before :=
    (ev1 ++
     [Query SELECT_COLUMNFAMILIES [_get_keyspace model]
            (select SELECT_COLUMNFAMILIES [_get_keyspace model] c1);
      Execute (create_table_query model)])%list in
  let r := create_table model cmk c in
  match e with
  | CQLEngineException msg =>
      if Py.str_in ALREADY_EXISTS msg then
        r = (outcome_of (index_step model c2), catalog_of (index_step model c2),
             (before ++ events_of (index_step model c2))%list) /\
        exists rest,
          events_of (index_step model c2) =
          Query SELECT_INDEXES [_get_keyspace model]
                (select SELECT_INDEXES [_get_keyspace model] c2) :: rest
      else r = (Raised e, c2, before)
  | ForeignException _ _ => r = (Raised e, c2, before)
  end.
Proof.
  intros Ha Hks Hnot Hrun before r. subst r.
  rewrite (create_table_concrete _ _ _ Ha).
  assert (Hts := table_step_run model c1). cbv zeta in Hts.
  rewrite (PyFacts.list_in_false _ _ Hnot), Hrun in Hts.
  destruct e as [msg|cls msg].
  - destruct (Py.str_in ALREADY_EXISTS msg) eqn:E.
    + assert (H2 : (keyspace_step model cmk ;; table_step model) c =
                   (Returned tt, c2, before)).
      { rewrite (bind_returned _ _ _ _ _ _ Hks), Hts. reflexivity. }
      split.
      * now rewrite (bind_returned _ _ _ _ _ _ H2).
      * destruct (index_step_run model c2) as (k & Hev & _). eauto.
    + apply bind_raised. rewrite (bind_returned _ _ _ _ _ _ Hks), Hts. reflexivity.
  - apply bind_raised. rewrite (bind_returned _ _ _ _ _ _ Hks), Hts. reflexivity.
Qed.

(** C4 (as amended).  The CREATE TABLE statement that [create_table]
    executes always has the clause [WITH read_repair_chance = <value>];
    the clause [AND clustering order by (...)] follows exactly when the
    model has a clustering key, and lists every clustering key with its
    declared order, or with [ASC] when none is declared. *)
Theorem clustering_order_clause (model : Model) (cmk : bool) c c1 ev1 :
  __abstract__ model = false ->
  keyspace_step model cmk c = (Returned tt, c1, ev1) ->
  ~ In (column_family_name model false)
       (select SELECT_COLUMNFAMILIES [_get_keyspace model] c1) ->
  exists rest,
    events_of (create_table model cmk c) =
      (ev1 ++
       Query SELECT_COLUMNFAMILIES [_get_keyspace model]
             (select SELECT_COLUMNFAMILIES [_get_keyspace model] c1) ::
       Execute (create_table_query model) :: rest)%list /\
    create_table_query model =
      "CREATE TABLE " ++ column_family_name model true ++ " (" ++
      Py.join ", "
        (qtypes (collect_columns model) ++
         [primary_key_clause (pkeys (collect_columns model))
                             (ckeys (collect_columns model))]) ++
      ") WITH read_repair_chance = " ++ __read_repair_chance__ model ++
      match values (_clustering_keys model) with
      | [] => ""
      | _ :: _ =>
          " AND clustering order by (" ++
          Py.join ", "
            (map (fun k => db_field_name k ++ " " ++
                           Py.or_str (clustering_order k) "ASC")
                 (values (_clustering_keys model))) ++ ")"
      end.
Proof.
  intros Ha Hks Hnot.
  destruct (create_table_executes_query model cmk c c1 ev1 Ha Hks Hnot)
    as [rest Hev].
  exists rest. split; [exact Hev|].
  rewrite TableText.create_table_query_eq, TableText.with_clauses_join.
  rewrite <- TableText.collect_columns_eq_pkeys, <- TableText.collect_columns_eq_ckeys,
    <- TableText.collect_columns_eq_qtypes.
  reflexivity.
Qed.

End TableClaims.

Section IndexAndDropClaims.

Context {conn : Connection}.

(** C7.  Once [create_table] reaches its index step it reads the index
    names of the keyspace once and then, going through the indexed columns
    in declaration order, executes
    [CREATE INDEX index_<table>_<column> ON <qualified table> ("<column>")]
    for the columns whose qualified name [<table>.index_<table>_<column>] is
    not among the names read, and nothing for the others: the statements
    issued are those of the pending columns, up to the first that fails,
    and all of them when the call returns. *)
Theorem index_step_statements (model : Model) (cmk : bool) c c2 ev2 :
  __abstract__ model = false ->
  (keyspace_step model cmk ;; table_step model) c = (Returned tt, c2, ev2) ->
  let cf_name := column_family_name model true in
  let raw_cf_name := column_family_name model false in
  let idx_names := select SELECT_INDEXES [_get_keyspace model] c2 in
  let expected :=
    map (create_index_query cf_name raw_cf_name) (pending_indexes model idx_names) in
  (exists k,
     events_of (create_table model cmk c) =
       (ev2 ++ Query SELECT_INDEXES [_get_keyspace model] idx_names ::
        map Execute (firstn k expected))%list /\
     (outcome_of (create_table model cmk c) = Returned tt ->
      firstn k expected = expected)) /\
  (forall column,
     index_name raw_cf_name column =
       "index_" ++ raw_cf_name ++ "_" ++ db_field_name column /\
     create_index_query cf_name raw_cf_name column =
       "CREATE INDEX " ++ index_name raw_cf_name column ++ " ON " ++ cf_name ++
       " (" ++ Py.quoted (db_field_name column) ++ ")") /\
  (forall column,
     In column (pending_indexes model idx_names) <->
     In column (values (_columns model)) /\ index column = true /\
     ~ In (raw_cf_name ++ "." ++ index_name raw_cf_name column) idx_names).
Proof.
  intros Ha Hpre cf_name raw_cf_name idx_names expected.
  split; [|split].
  - destruct (index_step_run model c2) as (k & Hev & Hout).
    exists k. rewrite (create_table_concrete _ _ _ Ha).
    rewrite (bind_returned _ _ _ _ _ _ Hpre).
    unfold events_of at 1, outcome_of at 1. cbn [fst snd].
    split; [now rewrite Hev | exact Hout].
  - intros column. split; [reflexivity|].
    unfold create_index_query. cbn [app Py.join String.concat].
    now rewrite !PyFacts.sapp_assoc.
  - intros column. unfold pending_indexes. fold raw_cf_name.
    rewrite !filter_In. split.
    + intros [[Hin Hidx] H]. repeat split; try assumption.
      intros Habs. apply PyFacts.list_in_iff in Habs.
      rewrite Habs in H. discriminate.
    + intros (Hin & Hidx & Hnot). repeat split; try assumption.
      now rewrite (PyFacts.list_in_false _ _ Hnot).
Qed.

(** C8.  [delete_keyspace] on a name that the keyspace list does not have,
    and [delete_table] on a model whose bare table name the column-family
    list of its keyspace does not have, read the catalog once, execute
    nothing, return without error and leave the catalog as it was. *)
Theorem delete_absent_is_noop :
  (forall name c,
     ~ In name (select SELECT_KEYSPACES [] c) ->
     delete_keyspace name c =
     (Returned tt, c, [Query SELECT_KEYSPACES [] (select SELECT_KEYSPACES [] c)])) /\
  (forall model c,
     ~ In (column_family_name model false)
          (select SELECT_COLUMNFAMILIES [_get_keyspace model] c) ->
     delete_table model c =
     (Returned tt, c,
      [Query SELECT_COLUMNFAMILIES [_get_keyspace model]
             (select SELECT_COLUMNFAMILIES [_get_keyspace model] c)])).
Proof.
  split.
  - intros name c H. unfold delete_keyspace, bind, con_execute.
    now rewrite (PyFacts.list_in_false _ _ H).
  - intros model c H. unfold delete_table, bind, con_execute.
    now rewrite (PyFacts.list_in_false _ _ H).
Qed.

(** C10.  For a non-abstract model, [create_table] with
    [create_missing_keyspace] set, on a cluster that does not list the
    model's keyspace, first reads the keyspace names and then executes the
    CREATE KEYSPACE statement of the defaults: the replication map has the
    two entries class [SimpleStrategy] and replication factor 3 and nothing
    else, and the statement has no durable-writes clause.  Nothing of the
    model but its keyspace name enters the statement. *)
Theorem missing_keyspace_created_with_defaults (model : Model) c :
  __abstract__ model = false ->
  ~ In (_get_keyspace model) (select SELECT_KEYSPACES [] c) ->
  let q := create_keyspace_query (_get_keyspace model) "SimpleStrategy" (PInt 3) true [] in
  (exists rest,
     events_of (create_table model true c) =
     Query SELECT_KEYSPACES [] (select SELECT_KEYSPACES [] c) :: Execute q :: rest) /\
  replication_map "SimpleStrategy" (PInt 3) [] =
    [("class", PStr "SimpleStrategy"); ("replication_factor", PInt 3)] /\
  q = INDENT ++ "CREATE KEYSPACE " ++ _get_keyspace model ++ INDENT ++
      "WITH REPLICATION = {'class': 'SimpleStrategy', 'replication_factor': 3}" ++
      INDENT /\
  has_durable_writes_clause q = false.
Proof.
  intros Ha Hnot q. repeat split.
  - unfold create_table. rewrite Ha.
    destruct (bind_events_prefix (keyspace_step model true)
                (fun _ => table_step model ;; index_step model) c) as [rest Hrest].
    rewrite Hrest. unfold keyspace_step, create_keyspace_defaults.
    rewrite create_keyspace_run. rewrite (PyFacts.list_in_false _ _ Hnot).
    fold q. destruct (run_ddl q c) as [c' [e|]]; simpl; eauto.
  - unfold q. now rewrite KeyspaceText.durable_writes_clause.
Qed.

End IndexAndDropClaims.

(** ** The claims on the sample cluster *)

Section Instances.

Import Sample.

Lemma primary_key_partition_then_clustering_witness :
  exists rest,
    events_of (create_table (conn := accepting) events_model true empty) =
      (keyspace_events ++
       Query SELECT_COLUMNFAMILIES ["ks"] [] ::
       Execute (create_table_query events_model) :: rest)%list /\
    create_table_query events_model =
      "CREATE TABLE ks.events (" ++
      Py.join ", "
        (map get_column_def [pk1; email; ck1; ck2] ++
         ["PRIMARY KEY (" ++
          Py.join ", " ["(" ++ Py.quoted "pk1" ++ ")"; Py.quoted "ck1"; Py.quoted "ck2"] ++
          ")"]) ++
      ") WITH " ++ Py.join " AND " (with_clauses events_model).
Proof.
  apply (primary_key_partition_then_clustering (conn := accepting)
           events_model true empty with_keyspace keyspace_events).
  - reflexivity.
  - reflexivity.
  - simpl. tauto.
Defined.

(** The statement of the example model of C1 does not have the clause
    with bare names: the names come between double quotes. *)
Lemma primary_key_names_are_quoted :
  let q := create_table_query events_model in
  nth_error (events_of (create_table (conn := accepting) events_model true empty)) 3 =
    Some (Execute q) /\
  Py.str_in "PRIMARY KEY ((pk1), ck1, ck2)" q = false /\
  Py.str_in ("PRIMARY KEY ((" ++ Py.quoted "pk1" ++ "), " ++
             Py.quoted "ck1" ++ ", " ++ Py.quoted "ck2" ++ ")") q = true.
Proof. vm_compute. repeat split. Qed.

Lemma abstract_model_is_refused_witness :
  create_table (conn := accepting) abstract_model false populated =
  (Raised (CQLEngineException "cannot create table from abstract model"),
   populated, []).
Proof.
  apply (abstract_model_is_refused (conn := accepting) abstract_model false populated).
  reflexivity.
Defined.

Lemma create_table_failure_handling_witness :
  let conn := refusing_tables (CQLEngineException already_exists_message) in
  create_table (conn := conn) events_model true empty =
    (outcome_of (index_step (conn := conn) events_model with_keyspace),
     catalog_of (index_step (conn := conn) events_model with_keyspace),
     ((keyspace_events ++ table_events) ++
      events_of (index_step (conn := conn) events_model with_keyspace))%list) /\
  exists rest,
    events_of (index_step (conn := conn) events_model with_keyspace) =
    Query SELECT_INDEXES ["ks"] [] :: rest.
Proof.
  intros conn.
  apply (create_table_failure_handling (conn := conn) events_model true empty
           with_keyspace keyspace_events with_keyspace
           (CQLEngineException already_exists_message)).
  - reflexivity.
  - reflexivity.
  - simpl. tauto.
  - reflexivity.
Defined.

(** A failure of another class than [CQLEngineException] is not caught,
    even with the already-exists text in its message: the call raises it
    and never reads the index names. *)
Lemma foreign_failure_is_not_swallowed :
  let e := ForeignException "AlreadyExists" already_exists_message in
  let conn := refusing_tables e in
  run_ddl (Connection := conn) (create_table_query events_model) with_keyspace =
    (with_keyspace, Some e) /\
  Py.str_in ALREADY_EXISTS (unicode e) = true /\
  create_table (conn := conn) events_model true empty =
    (Raised e, with_keyspace, (keyspace_events ++ table_events)%list).
Proof. vm_compute. repeat split. Qed.

Lemma clustering_order_clause_witness :
  exists rest,
    events_of (create_table (conn := accepting) events_model true empty) =
      (keyspace_events ++
       Query SELECT_COLUMNFAMILIES ["ks"] [] ::
       Execute (create_table_query events_model) :: rest)%list /\
    create_table_query events_model =
      "CREATE TABLE ks.events (" ++
      Py.join ", "
        (qtypes (collect_columns events_model) ++
         [primary_key_clause (pkeys (collect_columns events_model))
                             (ckeys (collect_columns events_model))]) ++
      ") WITH read_repair_chance = 0.2" ++
      " AND clustering order by (ck1 ASC, ck2 ASC)".
Proof.
  apply (clustering_order_clause (conn := accepting)
           events_model true empty with_keyspace keyspace_events).
  - reflexivity.
  - reflexivity.
  - simpl. tauto.
Defined.

(** Both clustering keys of the example model have the default order, and
    the statement executed still ends with a clustering-order clause. *)
Lemma default_order_still_has_clause :
  let q := create_table_query events_model in
  forallb (fun k => match clustering_order k with None => true | Some _ => false end)
          (values (_clustering_keys events_model)) = true /\
  nth_error (events_of (create_table (conn := accepting) events_model true empty)) 3 =
    Some (Execute q) /\
  Py.endswith q " AND clustering order by (ck1 ASC, ck2 ASC)" = true.
Proof. vm_compute. repeat split. Qed.

Lemma durable_writes_iff_not_simple_strategy_witness :
  let q := create_keyspace_query "k" "SimpleStrategy" (PInt 3) true [] in
  (has_durable_writes_clause q = true <-> "SimpleStrategy" <> "SimpleStrategy") /\
  ("SimpleStrategy" <> "SimpleStrategy" ->
   Py.endswith q (" AND DURABLE_WRITES = " ++ "true") = true).
Proof.
  apply (durable_writes_iff_not_simple_strategy (conn := accepting)
           "k" "SimpleStrategy" (PInt 3) true [] empty).
  vm_compute. tauto.
Defined.

(** The example of the replication map: a network topology with two data
    centres. *)
Lemma replication_map_merges_extras_witness :
  let extras := [("dc1", PInt 3); ("dc2", PInt 2)] in
  let q := create_keyspace_query "k" "NetworkTopologyStrategy" (PInt 3) true extras in
  let rm := replication_map "NetworkTopologyStrategy" (PInt 3) extras in
  (forall k v, In (k, v) extras -> dict_get k rm = Some v) /\
  (~ In "class" (dict_keys extras) ->
   dict_get "class" rm = Some (PStr "NetworkTopologyStrategy")) /\
  (~ In "replication_factor" (dict_keys extras) ->
   dict_get "replication_factor" rm = Some (PInt 3)) /\
  (exists post,
     q = INDENT ++ "CREATE KEYSPACE " ++ "k" ++ INDENT ++ "WITH REPLICATION = " ++
         Py.replace_char Py.dquote Py.squote (dumps rm) ++ post) /\
  (forall k v, dict_get k rm = Some v ->
     Py.str_in (Py.replace_char Py.dquote Py.squote (dumps_item (k, v))) q = true).
Proof.
  intros extras q rm.
  apply (replication_map_merges_extras (conn := accepting)
           "k" "NetworkTopologyStrategy" (PInt 3) true extras empty).
  - repeat constructor; simpl; intuition discriminate.
  - vm_compute. tauto.
Defined.

Lemma replication_map_example :
  create_keyspace_query "k" "NetworkTopologyStrategy" (PInt 3) true
                        [("dc1", PInt 3); ("dc2", PInt 2)] =
  INDENT ++ "CREATE KEYSPACE k" ++ INDENT ++
  "WITH REPLICATION = {'class': 'NetworkTopologyStrategy', 'replication_factor': 3, 'dc1': 3, 'dc2': 2}" ++
  INDENT ++ " AND DURABLE_WRITES = true".
Proof. reflexivity. Qed.

(** An extra option named ['class'] replaces the strategy class in the
    map. *)
Lemma replication_map_override_example :
  replication_map "SimpleStrategy" (PInt 3) [("class", PStr "LocalStrategy")] =
  [("class", PStr "LocalStrategy"); ("replication_factor", PInt 3)].
Proof. reflexivity. Qed.

Lemma index_step_statements_witness :
  (exists k,
     events_of (create_table (conn := accepting) events_model true empty) =
       ((keyspace_events ++ table_events) ++
        Query SELECT_INDEXES ["ks"] [] ::
        map Execute (firstn k [create_index_query "ks.events" "events" email]))%list /\
     (outcome_of (create_table (conn := accepting) events_model true empty) =
        Returned tt ->
      firstn k [create_index_query "ks.events" "events" email] =
      [create_index_query "ks.events" "events" email])) /\
  (forall column,
     index_name "events" column = "index_" ++ "events" ++ "_" ++ db_field_name column /\
     create_index_query "ks.events" "events" column =
       "CREATE INDEX " ++ index_name "events" column ++ " ON " ++ "ks.events" ++
       " (" ++ Py.quoted (db_field_name column) ++ ")") /\
  (forall column,
     In column (pending_indexes events_model []) <->
     In column (values (_columns events_model)) /\ index column = true /\
     ~ In ("events" ++ "." ++ index_name "events" column) []).
Proof.
  apply (index_step_statements (conn := accepting) events_model true empty
           with_keyspace (keyspace_events ++ table_events)).
  - reflexivity.
  - reflexivity.
Defined.

(** With the index in the catalog, no CREATE INDEX is executed. *)
Lemma existing_index_is_skipped :
  create_table (conn := accepting) events_model true populated =
  (Returned tt, populated,
   [Query SELECT_KEYSPACES [] ["system"; "ks"];
    Query SELECT_COLUMNFAMILIES ["ks"] ["events"];
    Query SELECT_INDEXES ["ks"] ["events.index_events_email"]]).
Proof. reflexivity. Qed.

Lemma delete_absent_is_noop_witness :
  delete_keyspace (conn := accepting) "nowhere" populated =
    (Returned tt, populated, [Query SELECT_KEYSPACES [] ["system"; "ks"]]) /\
  delete_table (conn := accepting) events_model with_keyspace =
    (Returned tt, with_keyspace, [Query SELECT_COLUMNFAMILIES ["ks"] []]).
Proof.
  split.
  - apply (proj1 (delete_absent_is_noop (conn := accepting)) "nowhere" populated).
    simpl. intuition discriminate.
  - apply (proj2 (delete_absent_is_noop (conn := accepting)) events_model with_keyspace).
    simpl. tauto.
Defined.

Lemma create_keyspace_idempotent_witness :
  create_keyspace (conn := accepting) "ks" "SimpleStrategy" (PInt 3) true []
                  with_keyspace =
    (Returned tt, with_keyspace, [Query SELECT_KEYSPACES [] ["ks"]]) /\
  count_occ string_dec ["ks"] "ks" = 1%nat.
Proof.
  apply (create_keyspace_idempotent (conn := accepting)
           "ks" "SimpleStrategy" (PInt 3) true [] empty with_keyspace keyspace_events).
  - constructor.
  - intros c' H. vm_compute in H. injection H as <-. apply Permutation_refl.
  - reflexivity.
Defined.

Lemma missing_keyspace_created_with_defaults_witness :
  let q := create_keyspace_query "ks" "SimpleStrategy" (PInt 3) true [] in
  (exists rest,
     events_of (create_table (conn := accepting) events_model true empty) =
     Query SELECT_KEYSPACES [] [] :: Execute q :: rest) /\
  replication_map "SimpleStrategy" (PInt 3) [] =
    [("class", PStr "SimpleStrategy"); ("replication_factor", PInt 3)] /\
  q = INDENT ++ "CREATE KEYSPACE " ++ "ks" ++ INDENT ++
      "WITH REPLICATION = {'class': 'SimpleStrategy', 'replication_factor': 3}" ++
      INDENT /\
  has_durable_writes_clause q = false.
Proof.
  apply (missing_keyspace_created_with_defaults (conn := accepting) events_model empty).
  - reflexivity.
  - simpl. tauto.
Defined.

End Instances.

(** * Further properties of the management functions *)

(** ** Keys of a dict, characters of a string *)

Module DictKeys.

Lemma keys_set (k k' : string) (v : pyval) (d : pydict) :
  In k' (dict_keys (dict_set k v d)) <-> k' = k \/ In k' (dict_keys d).
Proof.
  induction d as [|[k2 v2] d IH]; simpl.
  - intuition.
  - destruct (String.eqb_spec k k2) as [->|Hn]; simpl.
    + intuition.
    + rewrite IH. intuition.
Qed.

Lemma nodup_set (k : string) (v : pyval) (d : pydict) :
  NoDup (dict_keys d) -> NoDup (dict_keys (dict_set k v d)).
Proof.
  induction d as [|[k2 v2] d IH]; simpl; intros ND.
  - constructor; [intros [] | constructor].
  - inversion ND as [|? ? Hk ND']; subst.
    destruct (String.eqb_spec k k2) as [->|Hn]; simpl.
    + now constructor.
    + constructor; [|now apply IH].
      intros Hin. apply keys_set in Hin as [E|Hin]; [congruence | contradiction].
Qed.

Lemma keys_update (k' : string) (e d : pydict) :
  In k' (dict_keys (dict_update d e)) <-> In k' (dict_keys d) \/ In k' (dict_keys e).
Proof.
  revert d. induction e as [|[k v] e IH]; intros d.
  - simpl. intuition.
  - change (dict_update d ((k, v) :: e)) with (dict_update (dict_set k v d) e).
    rewrite IH, keys_set. simpl. intuition.
Qed.

Lemma nodup_update (e d : pydict) :
  NoDup (dict_keys d) -> NoDup (dict_keys (dict_update d e)).
Proof.
  revert d. induction e as [|[k v] e IH]; intros d ND; [exact ND|].
  change (dict_update d ((k, v) :: e)) with (dict_update (dict_set k v d) e).
  apply IH. now apply nodup_set.
Qed.

End DictKeys.

Module CharFacts.

Lemma str_in_char_cons (c x : ascii) (s : string) :
  Py.str_in (Py.str1 c) (String x s) = Ascii.eqb c x || Py.str_in (Py.str1 c) s.
Proof.
  rewrite PyFacts.str_in_unfold. unfold Py.str1 at 1. simpl String.prefix.
  destruct (ascii_dec c x) as [->|Hn].
  - rewrite Ascii.eqb_refl. now destruct s.
  - apply Ascii.eqb_neq in Hn. now rewrite Hn.
Qed.

Lemma str_in_char_app (c : ascii) (a b : string) :
  Py.str_in (Py.str1 c) (a ++ b) =
  Py.str_in (Py.str1 c) a || Py.str_in (Py.str1 c) b.
Proof.
  induction a as [|x a IH].
  - reflexivity.
  - change (String x a ++ b) with (String x (a ++ b)).
    rewrite !str_in_char_cons, IH. apply orb_assoc.
Qed.

Lemma replace_removes_char (a b : ascii) (s : string) :
  a <> b -> Py.str_in (Py.str1 a) (Py.replace_char a b s) = false.
Proof.
  intros Hab. induction s as [|x s IH]; [reflexivity|].
  simpl Py.replace_char. rewrite str_in_char_cons, IH, orb_false_r.
  destruct (Ascii.eqb_spec x a) as [->|Hn]; apply Ascii.eqb_neq; congruence.
Qed.

End CharFacts.

(** ** Keyspaces, beyond the claims *)

Section KeyspaceExtras.

Context {conn : Connection}.

(** X1.  [create_keyspace] reads the keyspace names once and first.  When
    the name is listed it does nothing more and returns; when it is not, it
    executes its one statement and has no handler around it: the call
    returns if the cluster accepts and raises the cluster's exception,
    whatever it says, if it refuses. *)
Theorem create_keyspace_trace
        name strategy_class replication_factor durable_writes replication_values c :
  let rows := select SELECT_KEYSPACES [] c in
  let q := create_keyspace_query name strategy_class replication_factor
             durable_writes replication_values in
  let r := create_keyspace name strategy_class replication_factor durable_writes
             replication_values c in
  (In name rows -> r = (Returned tt, c, [Query SELECT_KEYSPACES [] rows])) /\
  (~ In name rows ->
   events_of r = [Query SELECT_KEYSPACES [] rows; Execute q] /\
   catalog_of r = fst (run_ddl q c) /\
   outcome_of r = match snd (run_ddl q c) with
                  | None => Returned tt
                  | Some e => Raised e
                  end).
Proof.
  intros rows q r. subst r. rewrite create_keyspace_run. fold rows. fold q. split.
  - intros H. apply PyFacts.list_in_iff in H. now rewrite H.
  - intros H. rewrite (PyFacts.list_in_false _ _ H).
    destruct (run_ddl q c) as [c' [e|]]; repeat split.
Qed.

(** X2.  [delete_keyspace] on a listed name reads the keyspace names,
    then executes exactly [DROP KEYSPACE <name>]; the call returns if the
    cluster accepts the statement and raises the cluster's exception if
    not. *)
Theorem delete_keyspace_drops_listed name c :
  In name (select SELECT_KEYSPACES [] c) ->
  let q := "DROP KEYSPACE " ++ name in
  delete_keyspace name c =
  (match snd (run_ddl q c) with
   | None => Returned tt
   | Some e => Raised e
   end,
   fst (run_ddl q c),
   [Query SELECT_KEYSPACES [] (select SELECT_KEYSPACES [] c); Execute q]).
Proof.
  intros H q. apply PyFacts.list_in_iff in H.
  unfold delete_keyspace, bind, con_execute, execute. rewrite H. fold q.
  destruct (run_ddl q c) as [c' [e|]]; reflexivity.
Qed.

(** X3.  [delete_table] on a model whose bare table name is listed for its
    keyspace reads the column families, then executes exactly
    [drop table <qualified name>;]; the call returns if the cluster accepts
    the statement and raises the cluster's exception if not.  The abstract
    flag of the model plays no part. *)
Theorem delete_table_drops_listed (model : Model) c :
  In (column_family_name model false)
     (select SELECT_COLUMNFAMILIES [_get_keyspace model] c) ->
  let q := "drop table " ++ column_family_name model true ++ ";" in
  delete_table model c =
  (match snd (run_ddl q c) with
   | None => Returned tt
   | Some e => Raised e
   end,
   fst (run_ddl q c),
   [Query SELECT_COLUMNFAMILIES [_get_keyspace model]
          (select SELECT_COLUMNFAMILIES [_get_keyspace model] c);
    Execute q]).
Proof.
  intros H q. apply PyFacts.list_in_iff in H.
  unfold delete_table, bind, con_execute, execute. rewrite H. fold q.
  cbn [negb]. cbv beta iota.
  destruct (run_ddl q c) as [c' [e|]]; reflexivity.
Qed.

(** X4.  With the strategy ["SimpleStrategy"] the [durable_writes]
    argument has no effect at all: the call does the same with [True] and
    with [False]. *)
Theorem durable_writes_ignored_for_simple_strategy
        name replication_factor durable_writes replication_values c :
  create_keyspace name "SimpleStrategy" replication_factor durable_writes
                  replication_values c =
  create_keyspace name "SimpleStrategy" replication_factor (negb durable_writes)
                  replication_values c.
Proof. rewrite !create_keyspace_run. reflexivity. Qed.

(** X5.  Whatever the extra options, the replication map has each key
    once, has the keys ['class'] and ['replication_factor'], and has no key
    besides these two and those of the extra options. *)
Theorem replication_map_keys strategy_class replication_factor replication_values :
  let rm := replication_map strategy_class replication_factor replication_values in
  NoDup (dict_keys rm) /\
  (forall k, In k (dict_keys rm) <->
             k = "class" \/ k = "replication_factor" \/
             In k (dict_keys replication_values)).
Proof.
  intros rm. unfold rm, replication_map. split.
  - apply DictKeys.nodup_update. repeat apply DictKeys.nodup_set. constructor.
  - intros k. rewrite DictKeys.keys_update, !DictKeys.keys_set. simpl. intuition.
Qed.

(** X6.  When the keyspace name has no double quote, the statement that
    [create_keyspace] composes has none either: every double quote that
    [json.dumps] wrote, around a key or a value or escaped inside one, has
    become a single quote. *)
Theorem keyspace_statement_has_no_double_quote
        name strategy_class replication_factor durable_writes replication_values :
  Py.str_in (Py.str1 Py.dquote) name = false ->
  Py.str_in (Py.str1 Py.dquote)
            (create_keyspace_query name strategy_class replication_factor
                                   durable_writes replication_values) = false.
Proof.
  intros Hname. unfold create_keyspace_query, keyspace_template.
  assert (Hrep : forall s,
             Py.str_in (Py.str1 Py.dquote)
                       (Py.replace_char Py.dquote Py.squote s) = false).
  { intros s. apply CharFacts.replace_removes_char. discriminate. }
  destruct (negb _); [destruct durable_writes|];
    rewrite !CharFacts.str_in_char_app, Hname, Hrep; reflexivity.
Qed.

End KeyspaceExtras.

(** ** Steps of [create_table], beyond the claims *)

Section StepFacts.

Context {conn : Connection}.

Lemma bind_events_in {A B : Type} (m : M A) (k : A -> M B) c ev :
  In ev (events_of (bind m k c)) ->
  In ev (events_of (m c)) \/
  exists a, outcome_of (m c) = Returned a /\
            In ev (events_of (k a (catalog_of (m c)))).
Proof.
  destruct (m c) as [[[a|e] c1] ev1] eqn:E.
  - rewrite (bind_returned _ _ _ _ _ _ E). unfold events_of at 1. cbn [snd].
    intros H. apply in_app_or in H as [H|H]; [now left|].
    right. exists a. split; [reflexivity | exact H].
  - rewrite (bind_raised _ _ _ _ _ _ E). now left.
Qed.

Lemma create_index_query_eq (cf_name raw_cf_name : string) (column : Column) :
  create_index_query cf_name raw_cf_name column =
  "CREATE INDEX " ++ index_name raw_cf_name column ++ " ON " ++ cf_name ++
  " (" ++ Py.quoted (db_field_name column) ++ ")".
Proof.
  unfold create_index_query. cbn [app Py.join String.concat].
  now rewrite !PyFacts.sapp_assoc.
Qed.

(** The body of the index loop, for the index names read. *)
Lemma index_step_unfold (model : Model) c :
  let idx_names := select SELECT_INDEXES [_get_keyspace model] c in
  let skip := fun column : Column =>
    Py.list_in (column_family_name model false ++ "." ++
                index_name (column_family_name model false) column) idx_names in
  let stmt := create_index_query (column_family_name model true)
                                 (column_family_name model false) in
  let r := for_each (filter index (values (_columns model)))
                    (fun column => if skip column then ret tt
                                   else execute (stmt column)) c in
  index_step model c =
  (outcome_of r, catalog_of r,
   Query SELECT_INDEXES [_get_keyspace model] idx_names :: events_of r).
Proof.
  intros idx_names skip stmt r. unfold index_step, bind, con_execute.
  fold idx_names. subst r skip stmt.
  destruct (for_each _ _ c) as [[r c2] ev2]. reflexivity.
Qed.

Lemma for_each_none_pending {X : Type} (skip : X -> bool) (stmt : X -> string)
      (l : list X) c :
  filter (fun x => negb (skip x)) l = [] ->
  for_each l (fun x => if skip x then ret tt else execute (stmt x)) c =
  (Returned tt, c, []).
Proof.
  induction l as [|x l IH]; [reflexivity|].
  cbn [filter for_each]. destruct (skip x); cbn [negb]; [|discriminate].
  intros H. rewrite bind_ret. now apply IH.
Qed.

Lemma for_each_first_fails {X : Type} (skip : X -> bool) (stmt : X -> string)
      (l : list X) c x rest c3 e :
  filter (fun x => negb (skip x)) l = x :: rest ->
  run_ddl (stmt x) c = (c3, Some e) ->
  for_each l (fun x => if skip x then ret tt else execute (stmt x)) c =
  (Raised e, c3, [Execute (stmt x)]).
Proof.
  induction l as [|y l IH]; [discriminate|].
  cbn [filter for_each]. destruct (skip y); cbn [negb].
  - intros H Hrun. rewrite bind_ret. now apply IH.
  - intros H Hrun. injection H as -> _. rewrite bind_execute. now rewrite Hrun.
Qed.

Lemma in_firstn {X : Type} (n : nat) (l : list X) (x : X) :
  In x (firstn n l) -> In x l.
Proof.
  intros H. rewrite <- (firstn_skipn n l). apply in_or_app. now left.
Qed.

Lemma index_step_in (model : Model) c q :
  In (Execute q) (events_of (index_step model c)) ->
  exists column,
    In column (values (_columns model)) /\ index column = true /\
    q = create_index_query (column_family_name model true)
                           (column_family_name model false) column.
Proof.
  destruct (index_step_run model c) as (k & Hev & _). rewrite Hev.
  intros [H|H]; [discriminate|].
  apply in_map_iff in H as (q' & E & H). injection E as ->.
  apply in_firstn in H. apply in_map_iff in H as (column & <- & H).
  unfold pending_indexes in H. apply filter_In in H as [H _].
  apply filter_In in H as [Hin Hidx]. eauto.
Qed.

Lemma table_step_in (model : Model) c q :
  In (Execute q) (events_of (table_step model c)) -> q = create_table_query model.
Proof.
  rewrite table_step_run.
  destruct (Py.list_in _ _).
  - intros [H|[]]. discriminate.
  - destruct (run_ddl _ c) as [c' [[msg|cls msg]|]];
      [destruct (Py.str_in ALREADY_EXISTS msg)| |];
      intros [H|[H|[]]]; congruence.
Qed.

Lemma keyspace_step_in (model : Model) (cmk : bool) c q :
  In (Execute q) (events_of (keyspace_step model cmk c)) ->
  cmk = true /\
  q = create_keyspace_query (_get_keyspace model) "SimpleStrategy" (PInt 3) true [].
Proof.
  unfold keyspace_step. destruct cmk.
  - intros H. apply create_keyspace_executes in H. now split.
  - intros [].
Qed.

End StepFacts.

(** ** A raise comes from a refused statement *)

Section Provenance.

Context {conn : Connection}.










End Provenance.

(** ** [create_table], beyond the claims *)

Section TableExtras.

Context {conn : Connection}.

Lemma queries_app (a b : list event) : queries (a ++ b) = (queries a ++ queries b)%list.
Proof. unfold queries. apply flat_map_app. Qed.

Lemma queries_executes (l : list string) : queries (map Execute l) = [].
Proof. induction l as [|q l IH]; [reflexivity | exact IH]. Qed.

Lemma filter_none {X : Type} (f : X -> bool) (l : list X) :
  (forall x, In x l -> f x = false) -> filter f l = [].
Proof.
  induction l as [|x l IH]; [reflexivity|]. intros H. simpl.
  rewrite (H x) by now left. apply IH. intros y Hy. apply H. now right.
Qed.

Lemma keyspace_step_queries (model : Model) (cmk : bool) c :
  queries (events_of (keyspace_step model cmk c)) =
  if cmk then [SELECT_KEYSPACES] else [].
Proof.
  unfold keyspace_step, create_keyspace_defaults. destruct cmk; [|reflexivity].
  rewrite create_keyspace_run. destruct (Py.list_in _ _); [reflexivity|].
  destruct (run_ddl _ c) as [c' [e|]]; reflexivity.
Qed.

Lemma table_step_queries (model : Model) c :
  queries (events_of (table_step model c)) = [SELECT_COLUMNFAMILIES].
Proof.
  rewrite table_step_run. destruct (Py.list_in _ _); [reflexivity|].
  destruct (run_ddl _ c) as [c' [[msg|cls msg]|]];
    [destruct (Py.str_in ALREADY_EXISTS msg)| |]; reflexivity.
Qed.

Lemma index_step_queries (model : Model) c :
  queries (events_of (index_step model c)) = [SELECT_INDEXES].
Proof.
  destruct (index_step_run model c) as (k & Hev & _). rewrite Hev.
  change (queries (?x :: ?l)) with (SELECT_INDEXES :: queries l).
  cbn [queries flat_map]. fold (queries (map Execute (firstn k
    (map (create_index_query (column_family_name model true)
            (column_family_name model false))
       (pending_indexes model
          (select SELECT_INDEXES [_get_keyspace model] c)))))).
  now rewrite queries_executes.
Qed.

(** X7.  Every statement that [create_table] executes is one of three:
    the CREATE KEYSPACE of the defaults for the model's keyspace (only when
    [create_missing_keyspace] is set), the CREATE TABLE of the model, or
    the CREATE INDEX of an indexed column of the model.  In particular each
    statement starts with CREATE: [create_table] drops nothing. *)
Theorem create_table_only_creates (model : Model) (cmk : bool) c q :
  In (Execute q) (events_of (create_table model cmk c)) ->
  ((cmk = true /\
    q = create_keyspace_query (_get_keyspace model) "SimpleStrategy" (PInt 3) true []) \/
   q = create_table_query model \/
   exists column,
     In column (values (_columns model)) /\ index column = true /\
     q = create_index_query (column_family_name model true)
                            (column_family_name model false) column) /\
  (String.prefix (INDENT ++ "CREATE KEYSPACE ") q ||
   String.prefix "CREATE TABLE " q ||
   String.prefix "CREATE INDEX " q) = true.
Proof.
  intros H.
  assert (D : (cmk = true /\
    q = create_keyspace_query (_get_keyspace model) "SimpleStrategy" (PInt 3) true []) \/
   q = create_table_query model \/
   exists column,
     In column (values (_columns model)) /\ index column = true /\
     q = create_index_query (column_family_name model true)
                            (column_family_name model false) column).
  { destruct (__abstract__ model) eqn:Ha.
    - unfold create_table in H. rewrite Ha in H. destruct H.
    - unfold create_table in H. rewrite Ha in H.
      apply bind_events_in in H as [H|(a & _ & H)].
      + left. now apply keyspace_step_in in H.
      + apply bind_events_in in H as [H|(b & _ & H)].
        * right. left. now apply table_step_in in H.
        * right. right. now apply index_step_in in H. }
  split; [exact D|].
  destruct D as [[_ ->]|[->|(column & _ & _ & ->)]].
  - assert (P : String.prefix (INDENT ++ "CREATE KEYSPACE ")
                  (create_keyspace_query (_get_keyspace model) "SimpleStrategy"
                     (PInt 3) true []) = true).
    { apply PyFacts.prefix_iff. rewrite KeyspaceText.query_simple.
      unfold keyspace_template. eexists. rewrite PyFacts.sapp_assoc. reflexivity. }
    now rewrite P.
  - assert (P : String.prefix "CREATE TABLE " (create_table_query model) = true).
    { apply PyFacts.prefix_iff. rewrite TableText.create_table_query_eq.
      eexists. reflexivity. }
    rewrite P, orb_true_r. reflexivity.
  - assert (P : String.prefix "CREATE INDEX "
                  (create_index_query (column_family_name model true)
                     (column_family_name model false) column) = true).
    { apply PyFacts.prefix_iff. rewrite create_index_query_eq.
      eexists. reflexivity. }
    rewrite P. apply orb_true_r.
Qed.

(** X8.  On a catalog that already lists the keyspace (when
    [create_missing_keyspace] is set), the table and the index of every
    indexed column, [create_table] only reads: it executes nothing, returns
    without error and leaves the catalog as it was. *)
Theorem create_table_converged (model : Model) (cmk : bool) c :
  __abstract__ model = false ->
  (cmk = true -> In (_get_keyspace model) (select SELECT_KEYSPACES [] c)) ->
  In (column_family_name model false)
     (select SELECT_COLUMNFAMILIES [_get_keyspace model] c) ->
  (forall column,
     In column (values (_columns model)) -> index column = true ->
     In (column_family_name model false ++ "." ++
         index_name (column_family_name model false) column)
        (select SELECT_INDEXES [_get_keyspace model] c)) ->
  create_table model cmk c =
  (Returned tt, c,
   ((if cmk then [Query SELECT_KEYSPACES [] (select SELECT_KEYSPACES [] c)] else []) ++
    [Query SELECT_COLUMNFAMILIES [_get_keyspace model]
           (select SELECT_COLUMNFAMILIES [_get_keyspace model] c);
     Query SELECT_INDEXES [_get_keyspace model]
           (select SELECT_INDEXES [_get_keyspace model] c)])%list).
Proof.
  intros Ha Hks Htab Hidx.
  assert (K : keyspace_step model cmk c =
              (Returned tt, c,
               if cmk then [Query SELECT_KEYSPACES [] (select SELECT_KEYSPACES [] c)]
               else [])).
  { unfold keyspace_step, create_keyspace_defaults. destruct cmk; [|reflexivity].
    rewrite create_keyspace_run.
    now rewrite (proj2 (PyFacts.list_in_iff _ _) (Hks eq_refl)). }
  assert (T : table_step model c =
              (Returned tt, c,
               [Query SELECT_COLUMNFAMILIES [_get_keyspace model]
                      (select SELECT_COLUMNFAMILIES [_get_keyspace model] c)])).
  { rewrite table_step_run. now rewrite (proj2 (PyFacts.list_in_iff _ _) Htab). }
  assert (I : index_step model c =
              (Returned tt, c,
               [Query SELECT_INDEXES [_get_keyspace model]
                      (select SELECT_INDEXES [_get_keyspace model] c)])).
  { rewrite index_step_unfold. rewrite for_each_none_pending; [reflexivity|].
    apply filter_none. intros column H. apply filter_In in H as [Hin Hcol].
    apply negb_false_iff. apply PyFacts.list_in_iff. now apply Hidx. }
  unfold create_table. rewrite Ha.
  rewrite (bind_returned _ _ _ _ _ _ K).
  rewrite (bind_returned _ _ _ _ _ _ T). rewrite I. reflexivity.
Qed.

(** X9.  The keyspace step of [create_table] has no handler: when the
    keyspace is not listed and the cluster refuses its CREATE KEYSPACE,
    [create_table] raises the cluster's exception, whatever its class and
    message, right after that statement; the column families are not read
    and no table is created. *)
Theorem keyspace_failure_aborts_create_table (model : Model) c c' e :
  __abstract__ model = false ->
  ~ In (_get_keyspace model) (select SELECT_KEYSPACES [] c) ->
  run_ddl (create_keyspace_query (_get_keyspace model) "SimpleStrategy" (PInt 3) true [])
          c = (c', Some e) ->
  create_table model true c =
  (Raised e, c',
   [Query SELECT_KEYSPACES [] (select SELECT_KEYSPACES [] c);
    Execute (create_keyspace_query (_get_keyspace model) "SimpleStrategy"
                                   (PInt 3) true [])]).
Proof.
  intros Ha Hnot Hrun. unfold create_table. rewrite Ha.
  apply bind_raised. unfold keyspace_step, create_keyspace_defaults.
  rewrite create_keyspace_run, (PyFacts.list_in_false _ _ Hnot), Hrun. reflexivity.
Qed.

(** X10.  The index loop has no handler either: when the statement of the
    first pending index is refused, [create_table] raises the cluster's
    exception right after it, whatever its class and message, and the
    indexes of the later columns are not attempted. *)
Theorem index_failure_propagates (model : Model) (cmk : bool) c c2 ev2 column rest c3 e :
  __abstract__ model = false ->
  (keyspace_step model cmk ;; table_step model) c = (Returned tt, c2, ev2) ->
  pending_indexes model (select SELECT_INDEXES [_get_keyspace model] c2) =
    column :: rest ->
  run_ddl (create_index_query (column_family_name model true)
                              (column_family_name model false) column) c2 =
    (c3, Some e) ->
  create_table model cmk c =
  (Raised e, c3,
   (ev2 ++
    [Query SELECT_INDEXES [_get_keyspace model]
           (select SELECT_INDEXES [_get_keyspace model] c2);
     Execute (create_index_query (column_family_name model true)
                                 (column_family_name model false) column)])%list).
Proof.
  intros Ha Hpre Hpend Hrun. rewrite (create_table_concrete _ _ _ Ha).
  rewrite (bind_returned _ _ _ _ _ _ Hpre). rewrite index_step_unfold.
  unfold pending_indexes in Hpend.
  rewrite (for_each_first_fails _ _ _ _ _ _ _ _ Hpend Hrun). reflexivity.
Qed.

(** X11.  When the catalog lists the table, [create_table] executes no
    CREATE TABLE: after reading the column families it goes straight to the
    index step, on the same catalog. *)
Theorem existing_table_is_not_recreated (model : Model) (cmk : bool) c c1 ev1 :
  __abstract__ model = false ->
  keyspace_step model cmk c = (Returned tt, c1, ev1) ->
  In (column_family_name model false)
     (select SELECT_COLUMNFAMILIES [_get_keyspace model] c1) ->
  create_table model cmk c =
  (outcome_of (index_step model c1), catalog_of (index_step model c1),
   (ev1 ++
    Query SELECT_COLUMNFAMILIES [_get_keyspace model]
          (select SELECT_COLUMNFAMILIES [_get_keyspace model] c1) ::
    events_of (index_step model c1))%list).
Proof.
  intros Ha Hks Hin. unfold create_table. rewrite Ha.
  rewrite (bind_returned _ _ _ _ _ _ Hks).
  assert (T : table_step model c1 =
              (Returned tt, c1,
               [Query SELECT_COLUMNFAMILIES [_get_keyspace model]
                      (select SELECT_COLUMNFAMILIES [_get_keyspace model] c1)])).
  { rewrite table_step_run. now rewrite (proj2 (PyFacts.list_in_iff _ _) Hin). }
  rewrite (bind_returned _ _ _ _ _ _ T). reflexivity.
Qed.

(** X12.  When the catalog lists the model's keyspace, setting
    [create_missing_keyspace] only adds the read of the keyspace names in
    front: outcome, catalog and every later event are those of the call
    without it. *)
Theorem listed_keyspace_only_adds_a_read (model : Model) c :
  __abstract__ model = false ->
  In (_get_keyspace model) (select SELECT_KEYSPACES [] c) ->
  create_table model true c =
  (outcome_of (create_table model false c),
   catalog_of (create_table model false c),
   Query SELECT_KEYSPACES [] (select SELECT_KEYSPACES [] c) ::
   events_of (create_table model false c)).
Proof.
  intros Ha Hin. unfold create_table. rewrite Ha.
  assert (K : keyspace_step model true c =
              (Returned tt, c,
               [Query SELECT_KEYSPACES [] (select SELECT_KEYSPACES [] c)])).
  { unfold keyspace_step, create_keyspace_defaults. rewrite create_keyspace_run.
    now rewrite (proj2 (PyFacts.list_in_iff _ _) Hin). }
  rewrite (bind_returned _ _ _ _ _ _ K).
  assert (K0 : keyspace_step model false c = (Returned tt, c, [])) by reflexivity.
  rewrite (bind_returned _ _ _ _ _ _ K0). reflexivity.
Qed.


(** X14.  For a non-abstract model, [create_table] reads the catalog in a
    fixed order, each list at most once: the keyspace names (when
    [create_missing_keyspace] is set), the column families, the index
    names.  A call that raises has made a non-empty prefix of these reads; a
    call that returns has made them all. *)
Theorem create_table_reads_in_order (model : Model) (cmk : bool) c :
  __abstract__ model = false ->
  exists n,
    (1 <= n)%nat /\
    queries (events_of (create_table model cmk c)) = firstn n (create_table_reads cmk) /\
    (outcome_of (create_table model cmk c) = Returned tt ->
     queries (events_of (create_table model cmk c)) = create_table_reads cmk).
Proof.
  intros Ha. unfold create_table. rewrite Ha.
  assert (HK := keyspace_step_queries model cmk c).
  destruct (keyspace_step model cmk c) as [[[[]|e] c1] ev1] eqn:K.
  - rewrite (bind_returned _ _ _ _ _ _ K).
    assert (HT := table_step_queries model c1).
    destruct (table_step model c1) as [[[[]|e] c2] ev2] eqn:T.
    + rewrite (bind_returned _ _ _ _ _ _ T).
      assert (HI := index_step_queries model c2).
      unfold events_of, outcome_of in *. cbn [fst snd] in *.
      rewrite !queries_app, HK, HT, HI.
      exists 3%nat. destruct cmk; repeat split; lia.
    + rewrite (bind_raised _ _ _ _ _ _ T).
      unfold events_of, outcome_of in *. cbn [fst snd] in *.
      rewrite !queries_app, HK, HT.
      destruct cmk; [exists 2%nat | exists 1%nat];
        (split; [lia | split; [reflexivity | discriminate]]).
  - rewrite (bind_raised _ _ _ _ _ _ K).
    unfold events_of, outcome_of in *. cbn [fst snd] in *. rewrite HK.
    destruct cmk.
    + exists 1%nat. split; [lia | split; [reflexivity | discriminate]].
    + unfold keyspace_step in K. discriminate.
Qed.

End TableExtras.

(** ** The columns of the primary key *)

Module KeyColumns.

Lemma split_by_flag {X Y : Type} (g : X -> Y) (p q : X -> bool) (l : list X) :
  Permutation
    (map g (filter (fun x => p x && q x) l) ++
     map g (filter (fun x => p x && negb (q x)) l))
    (map g (filter p l)).
Proof.
  induction l as [|x l IH]; [constructor|].
  simpl. destruct (p x), (q x); simpl.
  - now constructor.
  - apply Permutation_sym, Permutation_cons_app, Permutation_sym, IH.
  - exact IH.
  - exact IH.
Qed.

(** X15.  The loop over the columns puts the name of every column flagged
    [primary_key] into exactly one of the two key lists, and the name of no
    other column into either, while every column, key or not, contributes
    its definition to the column list, in declaration order.  A column
    flagged [partition_key] but not [primary_key] is no key at all. *)
Theorem primary_key_columns_are_split (model : Model) :
  let acc := collect_columns model in
  Permutation (pkeys acc ++ ckeys acc)
              (map quoted_name (filter primary_key (values (_columns model)))) /\
  qtypes acc = map get_column_def (values (_columns model)).
Proof.
  intros acc. subst acc. rewrite TableText.collect_columns_eq. cbn [pkeys ckeys qtypes].
  split; [|reflexivity].
  apply (split_by_flag quoted_name primary_key partition_key).
Qed.

End KeyColumns.

(** ** The further properties on the sample cluster *)

Section ExtraInstances.

Import Sample.

Lemma create_keyspace_trace_witness :
  create_keyspace (conn := accepting) "ks" "SimpleStrategy" (PInt 3) true [] populated =
    (Returned tt, populated, [Query SELECT_KEYSPACES [] ["system"; "ks"]]) /\
  events_of (create_keyspace (conn := accepting) "ks" "SimpleStrategy" (PInt 3) true []
                             empty) = keyspace_events.
Proof.
  split.
  - apply (proj1 (create_keyspace_trace (conn := accepting)
                    "ks" "SimpleStrategy" (PInt 3) true [] populated)).
    simpl. tauto.
  - apply (proj2 (create_keyspace_trace (conn := accepting)
                    "ks" "SimpleStrategy" (PInt 3) true [] empty)).
    simpl. tauto.
Defined.

Lemma delete_keyspace_drops_listed_witness :
  delete_keyspace (conn := accepting) "ks" populated =
  (Returned tt, populated,
   [Query SELECT_KEYSPACES [] ["system"; "ks"]; Execute "DROP KEYSPACE ks"]).
Proof.
  apply (delete_keyspace_drops_listed (conn := accepting) "ks" populated).
  simpl. tauto.
Defined.

Lemma delete_table_drops_listed_witness :
  delete_table (conn := accepting) events_model populated =
  (Returned tt, populated,
   [Query SELECT_COLUMNFAMILIES ["ks"] ["events"]; Execute "drop table ks.events;"]).
Proof.
  apply (delete_table_drops_listed (conn := accepting) events_model populated).
  simpl. tauto.
Defined.

Lemma keyspace_statement_has_no_double_quote_witness :
  Py.str_in (Py.str1 Py.dquote)
            (create_keyspace_query "ks" "NetworkTopologyStrategy" (PInt 3) false
                                   [("dc1", PStr (Py.quoted "3"))]) = false.
Proof.
  apply (keyspace_statement_has_no_double_quote
           "ks" "NetworkTopologyStrategy" (PInt 3) false [("dc1", PStr (Py.quoted "3"))]).
  reflexivity.
Defined.

Lemma create_table_only_creates_witness :
  let q := create_table_query events_model in
  ((true = true /\
    q = create_keyspace_query "ks" "SimpleStrategy" (PInt 3) true []) \/
   q = create_table_query events_model \/
   exists column,
     In column (values (_columns events_model)) /\ index column = true /\
     q = create_index_query "ks.events" "events" column) /\
  (String.prefix (INDENT ++ "CREATE KEYSPACE ") q ||
   String.prefix "CREATE TABLE " q ||
   String.prefix "CREATE INDEX " q) = true.
Proof.
  apply (create_table_only_creates (conn := accepting) events_model true empty).
  vm_compute. do 3 right. left. reflexivity.
Defined.

Lemma create_table_converged_witness :
  create_table (conn := accepting) events_model true populated =
  (Returned tt, populated,
   [Query SELECT_KEYSPACES [] ["system"; "ks"];
    Query SELECT_COLUMNFAMILIES ["ks"] ["events"];
    Query SELECT_INDEXES ["ks"] ["events.index_events_email"]]).
Proof.
  apply (create_table_converged (conn := accepting) events_model true populated).
  - reflexivity.
  - intros _. simpl. tauto.
  - simpl. tauto.
  - intros column Hin Hidx. simpl in Hin.
    destruct Hin as [<-|[<-|[<-|[<-|[]]]]]; try discriminate Hidx.
    simpl. tauto.
Defined.

Lemma keyspace_failure_aborts_create_table_witness :
  let e := CQLEngineException "Cannot add existing keyspace" in
  create_table (conn := refusing_keyspaces e) events_model true empty =
  (Raised e, empty, keyspace_events).
Proof.
  intros e.
  apply (keyspace_failure_aborts_create_table (conn := refusing_keyspaces e)
           events_model empty empty e).
  - reflexivity.
  - simpl. tauto.
  - reflexivity.
Defined.

Lemma index_failure_propagates_witness :
  let e := CQLEngineException "Index already exists" in
  create_table (conn := refusing_indexes e) events_model true empty =
  (Raised e, with_keyspace,
   ((keyspace_events ++ table_events) ++
    [Query SELECT_INDEXES ["ks"] [];
     Execute (create_index_query "ks.events" "events" email)])%list).
Proof.
  intros e.
  apply (index_failure_propagates (conn := refusing_indexes e) events_model true
           empty with_keyspace (keyspace_events ++ table_events) email []
           with_keyspace e).
  - reflexivity.
  - reflexivity.
  - reflexivity.
  - reflexivity.
Defined.

Lemma existing_table_is_not_recreated_witness :
  create_table (conn := accepting) events_model true populated =
  (outcome_of (index_step (conn := accepting) events_model populated),
   catalog_of (index_step (conn := accepting) events_model populated),
   ([Query SELECT_KEYSPACES [] ["system"; "ks"]] ++
    Query SELECT_COLUMNFAMILIES ["ks"] ["events"] ::
    events_of (index_step (conn := accepting) events_model populated))%list).
Proof.
  apply (existing_table_is_not_recreated (conn := accepting) events_model true
           populated populated [Query SELECT_KEYSPACES [] ["system"; "ks"]]).
  - reflexivity.
  - reflexivity.
  - simpl. tauto.
Defined.

Lemma listed_keyspace_only_adds_a_read_witness :
  create_table (conn := accepting) events_model true with_keyspace =
  (outcome_of (create_table (conn := accepting) events_model false with_keyspace),
   catalog_of (create_table (conn := accepting) events_model false with_keyspace),
   Query SELECT_KEYSPACES [] ["ks"] ::
   events_of (create_table (conn := accepting) events_model false with_keyspace)).
Proof.
  apply (listed_keyspace_only_adds_a_read (conn := accepting) events_model with_keyspace).
  - reflexivity.
  - simpl. tauto.
Defined.


Lemma create_table_reads_in_order_witness :
  exists n,
    (1 <= n)%nat /\
    queries (events_of (create_table (conn := accepting) events_model true empty)) =
      firstn n (create_table_reads true) /\
    (outcome_of (create_table (conn := accepting) events_model true empty) =
       Returned tt ->
     queries (events_of (create_table (conn := accepting) events_model true empty)) =
       create_table_reads true).
Proof.
  apply (create_table_reads_in_order (conn := accepting) events_model true empty).
  reflexivity.
Defined.

End ExtraInstances.
